(** * op.py: TRH quantification from GC-MS peak lists

    A shallow embedding of the quantification functions of [op.py]
    ([sum_areas], [mean], [get_fraction_end_index],
    [get_fraction_start_index], [get_istd_area], [BlankAverage.__init__],
    [calculate_sample_concentration]) and the properties stated about them.

    Numbers.  The retention times and areas read from a report are Python
    floats; they are idealised here as exact rationals ([Q]), so that
    "exact arithmetic" statements are about [Qeq] ([==]).  Peak indices
    and slice bounds are Python ints ([Z]).

    Exceptions.  A function that can raise returns a [Py.result]; the
    exceptions of the module are the constructors of [Py.exception]. *)

From Stdlib Require Import List ZArith QArith Qabs Qround Qpower Qfield.
From Stdlib Require Import String Bool Lia Lqa Sorted.
Import ListNotations.

Open Scope Q_scope.

(* ================================================================== *)
(** ** Python builtins used by op.py *)
(* ================================================================== *)

Module Py.

Inductive exception : Type :=
| ValueError          (* min() of an empty sequence *)
| ZeroDivisionError   (* x / 0 *)
| TypeError           (* arithmetic on None *)
| IndexError          (* l[0] on an empty list *)
| IstdError (msg : string).

Inductive result (A : Type) : Type :=
| Ok (a : A)
| Raise (e : exception).
Arguments Ok {A} a.
Arguments Raise {A} e.

Definition bind {A B} (m : result A) (k : A -> result B) : result B :=
  match m with
  | Ok a => k a
  | Raise e => Raise e
  end.

(** [try: m  except ValueError: handler] *)
Definition except_ValueError {A} (m : result A) (handler : A) : result A :=
  match m with
  | Raise ValueError => Ok handler
  | other => other
  end.

Definition Qlt_bool (x y : Q) : bool := negb (Qle_bool y x).

Definition len {A} (l : list A) : Z := Z.of_nat (List.length l).

(** [sum(l)]: starts from 0 and adds the items from left to right. *)
Definition sum (l : list Q) : Q := fold_left Qplus l 0.

(** [a / b] on floats. *)
Definition truediv (a b : Q) : result Q :=
  if Qeq_bool b 0 then Raise ZeroDivisionError else Ok (a / b).

(** [min(l, key=key)]: the first item whose key is minimal; the running
    minimum is replaced only by an item with a strictly smaller key. *)
Definition min_step {A} (key : A -> Q) (best item : A) : A :=
  if Qlt_bool (key item) (key best) then item else best.

Definition min {A} (key : A -> Q) (l : list A) : result A :=
  match l with
  | [] => Raise ValueError
  | x :: xs => Ok (fold_left (min_step key) xs x)
  end.

(** [l[lo:hi]]: a negative bound counts from the end of the list, and
    both bounds are then clipped to [0, len(l)]. *)
Definition slice_index (n i : Z) : Z :=
  if (i <? 0)%Z then Z.max (i + n) 0 else Z.min i n.

Definition slice {A} (l : list A) (lo hi : Z) : list A :=
  let lo' := slice_index (len l) lo in
  let hi' := slice_index (len l) hi in
  firstn (Z.to_nat (hi' - lo')) (skipn (Z.to_nat lo') l).

(** [round(x, ndigits)] of Python 2: the closest multiple of
    [10 ** -ndigits], a tie going away from zero. *)
Definition round (x : Q) (ndigits : Z) : Q :=
  let pow := 10 ^ ndigits in
  let z := inject_Z (Qfloor (Qabs x * pow + (1 # 2))) in
  (if Qlt_bool x 0 then - z else z) / pow.

(** [[f(x) for x in l]] where [f] may raise: the first failure wins. *)
Fixpoint comprehension {A B} (f : A -> result B) (l : list A)
  : result (list B) :=
  match l with
  | [] => Ok []
  | x :: xs =>
      bind (f x) (fun y =>
      bind (comprehension f xs) (fun ys => Ok (y :: ys)))
  end.

(** [for x in l: st = body(st, x)] where the body may raise. *)
Fixpoint for_each {S A} (body : S -> A -> result S) (l : list A) (st : S)
  : result S :=
  match l with
  | [] => Ok st
  | x :: xs => bind (body st x) (for_each body xs)
  end.

End Py.

Import Py.

Notation "x <- m ;; k" := (Py.bind m (fun x => k))
  (at level 61, m at next level, right associativity).

(* ================================================================== *)
(** ** Data model *)
(* ================================================================== *)

(** A peak is the tuple built by [zip(peaks, starts, rts, ends, areas)] in
    [get_data_from_report].

    Modelled from the spec: the constants [opx.PEAK_LS_IDX],
    [opx.PEAK_LS_START], [opx.PEAK_LS_RT], [opx.PEAK_LS_END] and
    [opx.PEAK_LS_AREA] (module [opx] is not part of the sources) name the
    five positions of that tuple; [x[opx.PEAK_LS_END]] is [PEAK_LS_END x]. *)
Record Peak : Type := mkPeak {
  PEAK_LS_IDX   : Z;
  PEAK_LS_START : Q;
  PEAK_LS_RT    : Q;
  PEAK_LS_END   : Q;
  PEAK_LS_AREA  : Q
}.

(** The remaining constants of module [opx] that the engine reads; their
    values are not in the sources, so they are a parameter. *)
Record opx_constants : Type := mkOpx {
  C6_C10_END         : Q;
  C10_C16_START      : Q;
  C10_C16_END        : Q;
  C16_C34_END        : Q;
  C34_C40_END        : Q;
  DEF_DECIMAL_PLACES : Z
}.

(** An instance of class [BlankAverage].  A fraction attribute that the
    constructor did not set is [None]; [area] is [None] until the caller
    assigns a number to it. *)
Module BlankAverage.
Record t : Type := mk {
  area_c6_c10  : option Q;
  area_c10_c16 : option Q;
  area_c16_c34 : option Q;
  area_c34_c40 : option Q;
  area_c10_c40 : option Q;
  istd         : Q;
  area         : option Q
}.
End BlankAverage.

(* ================================================================== *)
(** ** Functions of op.py *)
(* ================================================================== *)

(** op.py 278-284 *)
Definition mean (list : list Q) : result Q :=
  Py.truediv (Py.sum list) (inject_Z (Py.len list)).

(** op.py 287-296 *)
Definition sum_areas (peak_data_list : list Peak) (low_index high_index : Z)
  : Q :=
  let areas := map PEAK_LS_AREA (Py.slice peak_data_list low_index high_index) in
  Py.sum areas.

(** op.py 208-220 *)
Definition get_fraction_end_index (peak_data_list : list Peak) (rt_end : Q)
  : result Z :=
  let end_indexes :=
    map (fun x => (PEAK_LS_IDX x, PEAK_LS_END x - rt_end))
        (filter (fun x => Qle_bool 0 (PEAK_LS_END x - rt_end)) peak_data_list) in
  end_tuple <- Py.min snd end_indexes ;;
  Ok (fst end_tuple).

(** op.py 223-240 *)
Definition get_fraction_start_index (peak_data_list : list Peak) (rt_start : Q)
  : result Z :=
  let start_indexes :=
    map (fun x => (PEAK_LS_IDX x, Qabs (PEAK_LS_START x - rt_start)))
        (filter (fun x => Qle_bool (PEAK_LS_START x - rt_start) 0) peak_data_list) in
  Py.except_ValueError
    (start_tuple <- Py.min snd start_indexes ;;
     Ok (fst start_tuple))
    1%Z.

(** op.py 253-262: the peaks inside both the retention-time window and
    the area window, as (rt, area) pairs. *)
Definition istd_in_window (istd_rt istd_rt_tolerance istd_area_target
                           istd_area_tolerance : Q) (x : Peak) : bool :=
  let istd_rt_low := istd_rt - istd_rt_tolerance in
  let istd_rt_high := istd_rt + istd_rt_tolerance in
  let lower_limit := istd_area_target - istd_area_tolerance in
  let upper_limit := istd_area_target + istd_area_tolerance in
  (Qle_bool istd_rt_low (PEAK_LS_RT x) && Qle_bool (PEAK_LS_RT x) istd_rt_high)
  && (Qle_bool lower_limit (PEAK_LS_AREA x) && Qle_bool (PEAK_LS_AREA x) upper_limit).

Definition istd_peak_list (peak_data_list : list Peak)
    (istd_rt istd_rt_tolerance istd_area_target istd_area_tolerance : Q)
  : list (Q * Q) :=
  map (fun x => (PEAK_LS_RT x, PEAK_LS_AREA x))
      (filter (istd_in_window istd_rt istd_rt_tolerance istd_area_target
                              istd_area_tolerance) peak_data_list).

(** op.py 264-267: "Try to isolate a single peak if there are multiples". *)
Definition istd_isolate (istd_rt : Q) (istd_peak_list : list (Q * Q))
  : result (list (Q * Q)) :=
  if (1 <? Py.len istd_peak_list)%Z then
    let istd_relative_rt :=
      map (fun p => (Qabs (fst p - istd_rt), snd p)) istd_peak_list in
    m <- Py.min fst istd_relative_rt ;;
    Ok [m]
  else Ok istd_peak_list.

(** op.py 269-275: "Test for presence of a single acceptable peak". *)
Definition istd_single (istd_peak_list : list (Q * Q)) : result Q :=
  if (Py.len istd_peak_list =? 0)%Z then
    Raise (IstdError "No acceptable internal standard peaks found.")
  else if (1 <? Py.len istd_peak_list)%Z then
    Raise (IstdError "More than one acceptable internal standard peak found.")
  else
    match istd_peak_list with
    | p :: _ => Ok (snd p)
    | [] => Raise IndexError
    end.

(** op.py 243-275 *)
Definition get_istd_area (peak_data_list : list Peak)
    (istd_rt istd_rt_tolerance istd_area_target istd_area_tolerance : Q)
  : result Q :=
  istd_peak_list <-
    istd_isolate istd_rt
      (istd_peak_list peak_data_list istd_rt istd_rt_tolerance
                      istd_area_target istd_area_tolerance) ;;
  istd_single istd_peak_list.

Section WithOpx.

Variable opx : opx_constants.

(** The local lists and the fraction attributes of [self] while the loop
    of [BlankAverage.__init__] runs. *)
Record init_frame : Type := mkFrame {
  areas_c6_c10  : list Q;
  areas_c10_c16 : list Q;
  areas_c16_c34 : list Q;
  areas_c34_c40 : list Q;
  areas_c10_c40 : list Q;
  self_area_c6_c10  : option Q;
  self_area_c10_c16 : option Q;
  self_area_c16_c34 : option Q;
  self_area_c34_c40 : option Q;
  self_area_c10_c40 : option Q
}.

(** op.py 51-56 *)
Definition init_frame0 : init_frame :=
  mkFrame [] [] [] [] [] None None None None None.

(** op.py 59-89: one iteration of [for blank in blank_data]. *)
Definition init_body (analysis_c6_c10 : bool) (f : init_frame)
    (blank : list Peak) : result init_frame :=
  if analysis_c6_c10 then
    i_c10 <- get_fraction_end_index blank (C6_C10_END opx) ;;
    let sum_c6_c10 := sum_areas blank 0 i_c10 in
    let areas_c6_c10' := areas_c6_c10 f ++ [sum_c6_c10] in
    area_c6_c10 <- mean areas_c6_c10' ;;
    Ok (mkFrame areas_c6_c10' (areas_c10_c16 f) (areas_c16_c34 f)
                (areas_c34_c40 f) (areas_c10_c40 f)
                (Some area_c6_c10) (self_area_c10_c16 f)
                (self_area_c16_c34 f) (self_area_c34_c40 f)
                (self_area_c10_c40 f))
  else
    i_c10 <- get_fraction_start_index blank (C10_C16_START opx) ;;
    i_c16 <- get_fraction_end_index blank (C10_C16_END opx) ;;
    let sum_c10_c16 := sum_areas blank i_c10 i_c16 in
    let areas_c10_c16' := areas_c10_c16 f ++ [sum_c10_c16] in
    i_c34 <- get_fraction_end_index blank (C16_C34_END opx) ;;
    let sum_c16_c34 := sum_areas blank i_c16 i_c34 in
    let areas_c16_c34' := areas_c16_c34 f ++ [sum_c16_c34] in
    i_c40 <- get_fraction_end_index blank (C34_C40_END opx) ;;
    let sum_c34_c40 := sum_areas blank i_c34 i_c40 in
    let areas_c34_c40' := areas_c34_c40 f ++ [sum_c34_c40] in
    let sum_c10_c40 := sum_areas blank i_c10 i_c40 in
    let areas_c10_c40' := areas_c10_c40 f ++ [sum_c10_c40] in
    area_c10_c16 <- mean areas_c10_c16' ;;
    area_c16_c34 <- mean areas_c16_c34' ;;
    area_c34_c40 <- mean areas_c34_c40' ;;
    area_c10_c40 <- mean areas_c10_c40' ;;
    Ok (mkFrame (areas_c6_c10 f) areas_c10_c16' areas_c16_c34'
                areas_c34_c40' areas_c10_c40'
                (self_area_c6_c10 f) (Some area_c10_c16)
                (Some area_c16_c34) (Some area_c34_c40)
                (Some area_c10_c40)).

(** op.py 49-92: [BlankAverage.__init__] *)
Definition BlankAverage__init__ (blank_data : list (list Peak))
    (analysis_c6_c10 : bool)
    (istd_rt istd_rt_tolerance istd_area_target istd_area_tolerance : Q)
  : result BlankAverage.t :=
  f <- Py.for_each (init_body analysis_c6_c10) blank_data init_frame0 ;;
  istds <- Py.comprehension
             (fun x => get_istd_area x istd_rt istd_rt_tolerance
                                     istd_area_target istd_area_tolerance)
             blank_data ;;
  istd <- mean istds ;;
  Ok (BlankAverage.mk (self_area_c6_c10 f) (self_area_c10_c16 f)
                      (self_area_c16_c34 f) (self_area_c34_c40 f)
                      (self_area_c10_c40 f) istd None).

(** [blank.area]: [None] is not a number. *)
Definition blank_area (blank : BlankAverage.t) : result Q :=
  match BlankAverage.area blank with
  | Some a => Ok a
  | None => Raise TypeError
  end.

(** op.py 120: the inversion of the linear calibration fit. *)
Definition concentration_ratio
    (response_ratio calibration_intercept calibration_slope : Q) : result Q :=
  Py.truediv (response_ratio - calibration_intercept) calibration_slope.

(** op.py 98-125 *)
Definition calculate_sample_concentration (peak_data_list : list Peak)
    (blank : BlankAverage.t) (low_index high_index : Z)
    (istd_rt istd_rt_tolerance istd_area_target istd_area_tolerance : Q)
    (calibration_slope calibration_intercept : Q)
    (istd_concentration dilution_factor : Q) : result Q :=
  let area := sum_areas peak_data_list low_index high_index in
  istd <- get_istd_area peak_data_list istd_rt istd_rt_tolerance
                        istd_area_target istd_area_tolerance ;;
  blank_area <- blank_area blank ;;
  blank_ratio <- Py.truediv blank_area (BlankAverage.istd blank) ;;
  let istd_blank_corrected := istd * blank_ratio in
  let area_blank_corrected := area - istd_blank_corrected in
  response_ratio <- Py.truediv area_blank_corrected istd ;;
  concentration_ratio <-
    concentration_ratio response_ratio calibration_intercept
                        calibration_slope ;;
  let concentration_vial := concentration_ratio * istd_concentration in
  let concentration_sample := concentration_vial * dilution_factor in
  Ok (Py.round concentration_sample (DEF_DECIMAL_PLACES opx)).

End WithOpx.

(** The two ISTD windows of the specification, as a proposition. *)
Definition in_both_windows (istd_rt istd_rt_tolerance istd_area_target
                            istd_area_tolerance : Q) (p : Peak) : Prop :=
  (istd_rt - istd_rt_tolerance <= PEAK_LS_RT p
   /\ PEAK_LS_RT p <= istd_rt + istd_rt_tolerance)
  /\ (istd_area_target - istd_area_tolerance <= PEAK_LS_AREA p
      /\ PEAK_LS_AREA p <= istd_area_target + istd_area_tolerance).

(** Fixtures. *)
Definition peak (i : Z) (s r e a : Q) : Peak := mkPeak i s r e a.

Definition sample3 : list Peak :=
  [peak 1 0 1 2 1000; peak 2 2 3 4 5000; peak 3 4 5 6 2000].

Definition fixture5 : list Peak :=
  [peak 1 0 1 2 10; peak 2 2 3 4 20; peak 3 4 5 6 40; peak 4 6 7 8 80;
   peak 5 8 9 10 160].

(** Boundary constants in ascending order, two decimal places. *)
Definition opx_demo : opx_constants := mkOpx 15 0 15 30 45 2.

(** A blank run of five separated peaks, and one whose first peak
    overlaps the second (it starts first and ends later). *)
Definition blank_separated : list Peak :=
  [peak 1 0 5 10 100; peak 2 10 12 16 200; peak 3 16 25 32 300;
   peak 4 32 40 46 400; peak 5 46 48 50 50].

Definition blank_overlapping : list Peak :=
  [peak 1 0 1 40 10; peak 2 1 2 20 20; peak 3 2 3 50 30].


Definition blank_zero_istd : BlankAverage.t :=
  BlankAverage.mk None (Some 200) (Some 300) (Some 400) (Some 900) 0
                  (Some 200).

(** The boundaries of one blank run resolve, in full-TRH mode, to
    non-negative indices in ascending order. *)
Definition resolved_in_order (opx : opx_constants) (blank : list Peak) : Prop :=
  exists i_c10 i_c16 i_c34 i_c40 : Z,
    get_fraction_start_index blank (C10_C16_START opx) = Ok i_c10
    /\ get_fraction_end_index blank (C10_C16_END opx) = Ok i_c16
    /\ get_fraction_end_index blank (C16_C34_END opx) = Ok i_c34
    /\ get_fraction_end_index blank (C34_C40_END opx) = Ok i_c40
    /\ (0 <= i_c10 <= i_c16)%Z /\ (i_c16 <= i_c34 <= i_c40)%Z.

(** Full-TRH mode keeps the four lists of sums the same length, and
    the C10-C40 sums add up to the sums of the three fractions. *)
Definition sums_agree (f : init_frame) : Prop :=
  List.length (areas_c10_c16 f) = List.length (areas_c10_c40 f)
  /\ List.length (areas_c16_c34 f) = List.length (areas_c10_c40 f)
  /\ List.length (areas_c34_c40 f) = List.length (areas_c10_c40 f)
  /\ Py.sum (areas_c10_c40 f)
     == Py.sum (areas_c10_c16 f) + Py.sum (areas_c16_c34 f)
        + Py.sum (areas_c34_c40 f).

(** After an iteration each attribute holds the mean of its list. *)
Definition means_set (f : init_frame) : Prop :=
  areas_c10_c40 f <> []
  /\ self_area_c10_c16 f
     = Some (Py.sum (areas_c10_c16 f) / inject_Z (Py.len (areas_c10_c16 f)))
  /\ self_area_c16_c34 f
     = Some (Py.sum (areas_c16_c34 f) / inject_Z (Py.len (areas_c16_c34 f)))
  /\ self_area_c34_c40 f
     = Some (Py.sum (areas_c34_c40 f) / inject_Z (Py.len (areas_c34_c40 f)))
  /\ self_area_c10_c40 f
     = Some (Py.sum (areas_c10_c40 f) / inject_Z (Py.len (areas_c10_c40 f))).

(** The sum one blank run appends in C6-C10 mode (op.py 62-63). *)
Definition run_sum_c6_c10 (opx : opx_constants) (blank : list Peak)
  : result Q :=
  i_c10 <- get_fraction_end_index blank (C6_C10_END opx) ;;
  Ok (sum_areas blank 0 i_c10).

(** The four sums one blank run appends in full-TRH mode (op.py 70-83). *)
Record run_sums : Type := mkSums {
  run_c10_c16 : Q;
  run_c16_c34 : Q;
  run_c34_c40 : Q;
  run_c10_c40 : Q
}.

Definition run_sums_full (opx : opx_constants) (blank : list Peak)
  : result run_sums :=
  i_c10 <- get_fraction_start_index blank (C10_C16_START opx) ;;
  i_c16 <- get_fraction_end_index blank (C10_C16_END opx) ;;
  i_c34 <- get_fraction_end_index blank (C16_C34_END opx) ;;
  i_c40 <- get_fraction_end_index blank (C34_C40_END opx) ;;
  Ok (mkSums (sum_areas blank i_c10 i_c16) (sum_areas blank i_c16 i_c34)
             (sum_areas blank i_c34 i_c40) (sum_areas blank i_c10 i_c40)).

(** The frame after the loop has appended [sums] to the lists of [f]:
    unchanged when nothing was appended, otherwise each attribute of the
    mode holds the mean of its list. *)
Definition frame_c6 (f : init_frame) (sums : list Q) : init_frame :=
  match sums with
  | [] => f
  | _ :: _ =>
      let l := areas_c6_c10 f ++ sums in
      mkFrame l (areas_c10_c16 f) (areas_c16_c34 f) (areas_c34_c40 f)
              (areas_c10_c40 f)
              (Some (Py.sum l / inject_Z (Py.len l)))
              (self_area_c10_c16 f) (self_area_c16_c34 f)
              (self_area_c34_c40 f) (self_area_c10_c40 f)
  end.

Definition frame_full (f : init_frame) (sums : list run_sums) : init_frame :=
  match sums with
  | [] => f
  | _ :: _ =>
      let l16 := areas_c10_c16 f ++ map run_c10_c16 sums in
      let l34 := areas_c16_c34 f ++ map run_c16_c34 sums in
      let l40 := areas_c34_c40 f ++ map run_c34_c40 sums in
      let l1040 := areas_c10_c40 f ++ map run_c10_c40 sums in
      mkFrame (areas_c6_c10 f) l16 l34 l40 l1040
              (self_area_c6_c10 f)
              (Some (Py.sum l16 / inject_Z (Py.len l16)))
              (Some (Py.sum l34 / inject_Z (Py.len l34)))
              (Some (Py.sum l40 / inject_Z (Py.len l40)))
              (Some (Py.sum l1040 / inject_Z (Py.len l1040)))
  end.

(** Every end boundary the mode needs has a peak of the run ending at or
    after it. *)
Definition ends_at_or_after (blank : list Peak) (rt_end : Q) : Prop :=
  exists p, In p blank /\ rt_end <= PEAK_LS_END p.

Definition boundaries_resolve (opx : opx_constants) (analysis_c6_c10 : bool)
    (blank : list Peak) : Prop :=
  if analysis_c6_c10 then ends_at_or_after blank (C6_C10_END opx)
  else ends_at_or_after blank (C10_C16_END opx)
       /\ ends_at_or_after blank (C16_C34_END opx)
       /\ ends_at_or_after blank (C34_C40_END opx).

(** The fraction attributes a constructed [BlankAverage] has: only
    [area_c6_c10] in C6-C10 mode, only the other four in full-TRH mode. *)
Definition attributes_of_mode (analysis_c6_c10 : bool) (b : BlankAverage.t)
  : Prop :=
  if analysis_c6_c10 then
    BlankAverage.area_c6_c10 b <> None
    /\ BlankAverage.area_c10_c16 b = None /\ BlankAverage.area_c16_c34 b = None
    /\ BlankAverage.area_c34_c40 b = None /\ BlankAverage.area_c10_c40 b = None
  else
    BlankAverage.area_c6_c10 b = None
    /\ BlankAverage.area_c10_c16 b <> None /\ BlankAverage.area_c16_c34 b <> None
    /\ BlankAverage.area_c34_c40 b <> None /\ BlankAverage.area_c10_c40 b <> None.

(** The run has a peak in both ISTD windows. *)
Definition has_istd_peak (istd_rt istd_rt_tolerance istd_area_target
                          istd_area_tolerance : Q) (blank : list Peak) : Prop :=
  exists p, In p blank
    /\ in_both_windows istd_rt istd_rt_tolerance istd_area_target
                       istd_area_tolerance p.

(** What the constructor returns for the batch [[blank_separated]] in
    full-TRH mode with ISTD window (12, 1, 200, 10), and the same object
    after the caller has assigned [area]. *)
Definition blank_constructed : BlankAverage.t :=
  BlankAverage.mk None (Some 200) (Some 300) (Some 400) (Some 900) 200 None.

Definition blank_assigned : BlankAverage.t :=
  BlankAverage.mk None (Some 200) (Some 300) (Some 400) (Some 900) 200
                  (Some 200).

(** [p] comes before [q] in a peak list ordered by end time and index. *)
Definition ends_before (p q : Peak) : Prop :=
  PEAK_LS_END p <= PEAK_LS_END q /\ (PEAK_LS_IDX p < PEAK_LS_IDX q)%Z.

(** Two peaks that end at the same time, and two in the ISTD window at
    the same distance from the nominal retention time. *)
Definition tied_ends : list Peak :=
  [peak 1 0 1 2 10; peak 2 1 2 4 20; peak 3 2 3 4 30; peak 4 4 5 6 40].

Definition tied_istd : list Peak :=
  [peak 1 0 2 3 5100; peak 2 3 4 5 4900; peak 3 5 6 7 300].

(* ================================================================== *)
(** ** Facts about the builtins *)
(* ================================================================== *)

Section Builtins.

Lemma Qlt_bool_iff (x y : Q) : Py.Qlt_bool x y = true <-> x < y.
Proof.
  unfold Py.Qlt_bool. rewrite negb_true_iff.
  split; intro H.
  - apply Qnot_le_lt. intro Hle. apply Qle_bool_iff in Hle. congruence.
  - destruct (Qle_bool y x) eqn:E; [|reflexivity].
    apply Qle_bool_iff in E. exfalso. apply (Qlt_not_le _ _ H E).
Qed.

Lemma Qlt_bool_false (x y : Q) : Py.Qlt_bool x y = false <-> y <= x.
Proof.
  unfold Py.Qlt_bool. rewrite negb_false_iff. apply Qle_bool_iff.
Qed.

Context {A : Type} (key : A -> Q).

(** The running minimum of [min]: it is the start value or an item
    seen, and its key is below the start value's and every item's. *)
Lemma min_fold_spec (xs : list A) : forall x,
  let m := fold_left (Py.min_step key) xs x in
  (m = x \/ In m xs) /\ key m <= key x
  /\ (forall y, In y xs -> key m <= key y).
Proof.
  induction xs as [|a xs IH]; intros x; simpl.
  - repeat split; [now left | apply Qle_refl | tauto].
  - destruct (IH (Py.min_step key x a)) as (Hin & Hle & Hall).
    assert (Hstep : (Py.min_step key x a = x \/ Py.min_step key x a = a)
                    /\ key (Py.min_step key x a) <= key x
                    /\ key (Py.min_step key x a) <= key a).
    { unfold Py.min_step.
      destruct (Py.Qlt_bool (key a) (key x)) eqn:E.
      - apply Qlt_bool_iff in E.
        repeat split; [now right | now apply Qlt_le_weak | apply Qle_refl].
      - apply Qlt_bool_false in E.
        repeat split; [now left | apply Qle_refl | exact E]. }
    destruct Hstep as (Hsel & Hx & Ha).
    split; [|split].
    + destruct Hin as [-> | Hin]; [|now right; right].
      destruct Hsel as [-> | ->]; [now left | now right; left].
    + eapply Qle_trans; eassumption.
    + intros y [<- | Hy]; [eapply Qle_trans; eassumption | now apply Hall].
Qed.

Lemma min_Ok_In (l : list A) (m : A) : Py.min key l = Ok m -> In m l.
Proof.
  destruct l as [|x xs]; simpl; [discriminate|].
  intros [= <-]. destruct (min_fold_spec xs x) as ([-> | H] & _); auto.
Qed.

Lemma min_Ok_le (l : list A) (m : A) :
  Py.min key l = Ok m -> forall y, In y l -> key m <= key y.
Proof.
  destruct l as [|x xs]; simpl; [discriminate|].
  intros [= <-] y [<- | Hy];
    destruct (min_fold_spec xs x) as (_ & Hx & Hall); auto.
Qed.

Lemma min_nonempty (l : list A) : l <> [] -> exists m, Py.min key l = Ok m.
Proof. destruct l; [congruence | intros _; simpl; eauto]. Qed.

End Builtins.

(* ================================================================== *)
(** ** Retention-time boundaries *)
(* ================================================================== *)

(** An item of a filtered and mapped list comes from an item of the list
    that passes the filter. *)
Lemma in_map_filter {A B} (f : A -> B) (c : A -> bool) (l : list A) (y : B) :
  In y (map f (filter c l)) <-> exists x, In x l /\ c x = true /\ y = f x.
Proof.
  rewrite in_map_iff. split.
  - intros (x & <- & Hx). apply filter_In in Hx. exists x; tauto.
  - intros (x & Hx & Hc & ->). exists x. rewrite filter_In. tauto.
Qed.

Lemma filter_none {A} (c : A -> bool) (l : list A) :
  (forall x, In x l -> c x = false) -> filter c l = [].
Proof.
  induction l as [|a l IH]; simpl; intros H; [reflexivity|].
  rewrite (H a) by now left. apply IH. intros x Hx. apply H. now right.
Qed.

(** C3: when some peak ends at or after [rt_end],
    [get_fraction_end_index] returns the stored index of a peak whose
    non-negative difference [end_rt - rt_end] is minimal; when no peak
    does, the call raises [ValueError] (min of an empty sequence). *)
Theorem get_fraction_end_index_spec (peaks : list Peak) (rt_end : Q) :
  ((exists p, In p peaks /\ rt_end <= PEAK_LS_END p) ->
   exists p, In p peaks /\ 0 <= PEAK_LS_END p - rt_end
     /\ (forall q, In q peaks -> rt_end <= PEAK_LS_END q ->
           PEAK_LS_END p - rt_end <= PEAK_LS_END q - rt_end)
     /\ get_fraction_end_index peaks rt_end = Ok (PEAK_LS_IDX p))
  /\ ((forall p, In p peaks -> PEAK_LS_END p < rt_end) ->
      get_fraction_end_index peaks rt_end = Raise ValueError).
Proof.
  unfold get_fraction_end_index. split.
  - intros (p0 & Hp0 & Hge).
    set (c := fun x : Peak => Qle_bool 0 (PEAK_LS_END x - rt_end)).
    set (f := fun x : Peak => (PEAK_LS_IDX x, PEAK_LS_END x - rt_end)).
    assert (Hc : forall x, c x = true <-> rt_end <= PEAK_LS_END x).
    { intros x. unfold c. rewrite Qle_bool_iff. split; intro; lra. }
    destruct (min_nonempty snd (map f (filter c peaks))) as (m & Hm).
    { intros E. assert (Hin : In (f p0) (map f (filter c peaks))).
      { apply in_map_filter. exists p0. rewrite Hc. tauto. }
      rewrite E in Hin. exact Hin. }
    rewrite Hm. simpl.
    pose proof (min_Ok_In _ _ _ Hm) as Hin.
    apply in_map_filter in Hin. destruct Hin as (p & Hp & Hcp & ->).
    exists p. apply Hc in Hcp. repeat split; auto.
    + lra.
    + intros q Hq Hqge.
      apply (min_Ok_le _ _ _ Hm (f q)).
      apply in_map_filter. exists q. rewrite Hc. tauto.
  - intros Hnone. rewrite filter_none; [reflexivity|].
    intros x Hx. specialize (Hnone x Hx).
    destruct (Qle_bool 0 (PEAK_LS_END x - rt_end)) eqn:E; [|reflexivity].
    apply Qle_bool_iff in E. lra.
Qed.

Lemma get_fraction_end_index_witness :
  (exists p, In p sample3 /\ 0 <= PEAK_LS_END p - 3
     /\ (forall q, In q sample3 -> 3 <= PEAK_LS_END q ->
           PEAK_LS_END p - 3 <= PEAK_LS_END q - 3)
     /\ get_fraction_end_index sample3 3 = Ok (PEAK_LS_IDX p))
  /\ get_fraction_end_index sample3 7 = Raise ValueError.
Proof.
  split.
  - apply (proj1 (get_fraction_end_index_spec sample3 3)).
    exists (peak 2 2 3 4 5000). split; [simpl; tauto | vm_compute; discriminate].
  - apply (proj2 (get_fraction_end_index_spec sample3 7)).
    intros p [<- | [<- | [<- | []]]]; reflexivity.
Defined.

(** C4: when some peak starts at or before [rt_start],
    [get_fraction_start_index] returns the stored index of a peak that
    minimises [|start_rt - rt_start|] among those peaks; when every peak
    starts after [rt_start] it returns 1 and does not fail. *)
Theorem get_fraction_start_index_spec (peaks : list Peak) (rt_start : Q) :
  ((exists p, In p peaks /\ PEAK_LS_START p <= rt_start) ->
   exists p, In p peaks /\ PEAK_LS_START p <= rt_start
     /\ (forall q, In q peaks -> PEAK_LS_START q <= rt_start ->
           Qabs (PEAK_LS_START p - rt_start) <= Qabs (PEAK_LS_START q - rt_start))
     /\ get_fraction_start_index peaks rt_start = Ok (PEAK_LS_IDX p))
  /\ ((forall p, In p peaks -> rt_start < PEAK_LS_START p) ->
      get_fraction_start_index peaks rt_start = Ok 1%Z).
Proof.
  unfold get_fraction_start_index. split.
  - intros (p0 & Hp0 & Hle).
    set (c := fun x : Peak => Qle_bool (PEAK_LS_START x - rt_start) 0).
    set (f := fun x : Peak => (PEAK_LS_IDX x, Qabs (PEAK_LS_START x - rt_start))).
    assert (Hc : forall x, c x = true <-> PEAK_LS_START x <= rt_start).
    { intros x. unfold c. rewrite Qle_bool_iff. split; intro; lra. }
    destruct (min_nonempty snd (map f (filter c peaks))) as (m & Hm).
    { intros E. assert (Hin : In (f p0) (map f (filter c peaks))).
      { apply in_map_filter. exists p0. rewrite Hc. tauto. }
      rewrite E in Hin. exact Hin. }
    rewrite Hm. simpl.
    pose proof (min_Ok_In _ _ _ Hm) as Hin.
    apply in_map_filter in Hin. destruct Hin as (p & Hp & Hcp & ->).
    exists p. apply Hc in Hcp. repeat split; auto.
    intros q Hq Hqle.
    apply (min_Ok_le _ _ _ Hm (f q)).
    apply in_map_filter. exists q. rewrite Hc. tauto.
  - intros Hnone. rewrite filter_none; [reflexivity|].
    intros x Hx. specialize (Hnone x Hx).
    destruct (Qle_bool (PEAK_LS_START x - rt_start) 0) eqn:E; [|reflexivity].
    apply Qle_bool_iff in E. lra.
Qed.

Lemma get_fraction_start_index_witness :
  (exists p, In p sample3 /\ PEAK_LS_START p <= 3
     /\ (forall q, In q sample3 -> PEAK_LS_START q <= 3 ->
           Qabs (PEAK_LS_START p - 3) <= Qabs (PEAK_LS_START q - 3))
     /\ get_fraction_start_index sample3 3 = Ok (PEAK_LS_IDX p))
  /\ get_fraction_start_index sample3 (-1) = Ok 1%Z.
Proof.
  split.
  - apply (proj1 (get_fraction_start_index_spec sample3 3)).
    exists (peak 2 2 3 4 5000). split; [simpl; tauto | vm_compute; discriminate].
  - apply (proj2 (get_fraction_start_index_spec sample3 (-1))).
    intros p [<- | [<- | [<- | []]]]; reflexivity.
Defined.

(* ================================================================== *)
(** ** Internal standard *)
(* ================================================================== *)

Section Istd.

Variables istd_rt istd_rt_tolerance istd_area_target istd_area_tolerance : Q.

Local Abbreviation in_window :=
  (istd_in_window istd_rt istd_rt_tolerance istd_area_target
                  istd_area_tolerance).
Local Abbreviation windows :=
  (in_both_windows istd_rt istd_rt_tolerance istd_area_target
                   istd_area_tolerance).
Local Abbreviation candidates peaks :=
  (istd_peak_list peaks istd_rt istd_rt_tolerance istd_area_target
                  istd_area_tolerance).

(** The boolean filter of the code decides the two windows. *)
Lemma istd_in_window_iff (p : Peak) : in_window p = true <-> windows p.
Proof.
  unfold istd_in_window, in_both_windows.
  rewrite !andb_true_iff, !Qle_bool_iff. tauto.
Qed.

Lemma istd_in_window_false (p : Peak) : ~ windows p -> in_window p = false.
Proof.
  intros H. destruct (in_window p) eqn:E; [|reflexivity].
  now apply istd_in_window_iff in E.
Qed.

Lemma len_nil {A} : Py.len (@nil A) = 0%Z.
Proof. reflexivity. Qed.

Lemma len_cons {A} (x : A) (l : list A) : Py.len (x :: l) = (Py.len l + 1)%Z.
Proof. unfold Py.len. cbn [List.length]. lia. Qed.

Lemma len_nonneg {A} (l : list A) : (0 <= Py.len l)%Z.
Proof. unfold Py.len. lia. Qed.

(** Disambiguation of two or more candidates leaves exactly one pair:
    the area of a candidate whose distance to [istd_rt] is minimal. *)
Lemma istd_isolate_many (l : list (Q * Q)) :
  (1 < Py.len l)%Z ->
  exists c, In c l
    /\ (forall d, In d l -> Qabs (fst c - istd_rt) <= Qabs (fst d - istd_rt))
    /\ istd_isolate istd_rt l = Ok [(Qabs (fst c - istd_rt), snd c)].
Proof.
  intros Hlen. unfold istd_isolate.
  apply Z.ltb_lt in Hlen. rewrite Hlen.
  set (f := fun p : Q * Q => (Qabs (fst p - istd_rt), snd p)).
  destruct (min_nonempty fst (map f l)) as (m & Hm).
  { destruct l; [discriminate | simpl; congruence]. }
  rewrite Hm. simpl.
  pose proof (min_Ok_In _ _ _ Hm) as Hin.
  apply in_map_iff in Hin. destruct Hin as (c & <- & Hc).
  exists c. repeat split; auto.
  intros d Hd. apply (min_Ok_le _ _ _ Hm (f d)). now apply in_map.
Qed.

Lemma istd_isolate_few (l : list (Q * Q)) :
  (Py.len l <= 1)%Z -> istd_isolate istd_rt l = Ok l.
Proof.
  intros Hlen. unfold istd_isolate.
  apply Z.ltb_ge in Hlen. now rewrite Hlen.
Qed.

Lemma istd_single_one (c : Q * Q) : istd_single [c] = Ok (snd c).
Proof. reflexivity. Qed.

Lemma candidates_app (l1 l2 : list Peak) :
  candidates (l1 ++ l2) = candidates l1 ++ candidates l2.
Proof. unfold istd_peak_list. now rewrite filter_app, map_app. Qed.

Lemma candidates_cons_in (p : Peak) (l : list Peak) :
  windows p ->
  candidates (p :: l) = (PEAK_LS_RT p, PEAK_LS_AREA p) :: candidates l.
Proof.
  intros H. apply istd_in_window_iff in H.
  unfold istd_peak_list. simpl. now rewrite H.
Qed.

Lemma candidates_none (l : list Peak) :
  (forall q, In q l -> ~ windows q) -> candidates l = [].
Proof.
  intros H. unfold istd_peak_list. rewrite filter_none; [reflexivity|].
  intros x Hx. apply istd_in_window_false. now apply H.
Qed.

Lemma candidates_In (l : list Peak) (c : Q * Q) :
  In c (candidates l) <->
  exists p, In p l /\ windows p /\ c = (PEAK_LS_RT p, PEAK_LS_AREA p).
Proof.
  unfold istd_peak_list. rewrite in_map_filter.
  split; intros (p & Hp & Hw & ->); exists p;
    (split; [assumption|split; [|reflexivity]]);
    now apply istd_in_window_iff.
Qed.

(** C2: exactly one peak in both windows: its area is returned; more
    than one: the area of one whose [|rt - istd_rt|] is minimal among
    them is returned; none: [IstdError] is raised. *)
Theorem get_istd_area_spec (peaks : list Peak) :
  (forall l1 p l2,
      peaks = l1 ++ p :: l2 -> windows p ->
      (forall q, In q (l1 ++ l2) -> ~ windows q) ->
      get_istd_area peaks istd_rt istd_rt_tolerance istd_area_target
                    istd_area_tolerance = Ok (PEAK_LS_AREA p))
  /\ (forall l1 p1 l2 p2 l3,
      peaks = l1 ++ p1 :: l2 ++ p2 :: l3 -> windows p1 -> windows p2 ->
      exists p, In p peaks /\ windows p
        /\ (forall q, In q peaks -> windows q ->
              Qabs (PEAK_LS_RT p - istd_rt) <= Qabs (PEAK_LS_RT q - istd_rt))
        /\ get_istd_area peaks istd_rt istd_rt_tolerance istd_area_target
                         istd_area_tolerance = Ok (PEAK_LS_AREA p))
  /\ ((forall q, In q peaks -> ~ windows q) ->
      get_istd_area peaks istd_rt istd_rt_tolerance istd_area_target
                    istd_area_tolerance
      = Raise (IstdError "No acceptable internal standard peaks found.")).
Proof.
  unfold get_istd_area. split; [|split].
  - intros l1 p l2 -> Hp Hnone.
    rewrite candidates_app, (candidates_cons_in p l2 Hp).
    rewrite (candidates_none l1), (candidates_none l2);
      try (intros q Hq; apply Hnone, in_or_app; tauto).
    reflexivity.
  - intros l1 p1 l2 p2 l3 E Hp1 Hp2.
    destruct (istd_isolate_many (candidates peaks)) as (c & Hc & Hmin & Hiso).
    { rewrite E, candidates_app, (candidates_cons_in p1 _ Hp1),
        candidates_app, (candidates_cons_in p2 _ Hp2).
      unfold Py.len. rewrite length_app. simpl. rewrite length_app. simpl.
      lia. }
    rewrite Hiso. simpl Py.bind. rewrite istd_single_one. simpl snd.
    apply candidates_In in Hc. destruct Hc as (p & Hp & Hw & ->).
    exists p. repeat split; try assumption; try apply Hw.
    intros q Hq Hwq.
    apply (Hmin (PEAK_LS_RT q, PEAK_LS_AREA q)).
    apply candidates_In. now exists q.
  - intros Hnone. now rewrite (candidates_none peaks Hnone).
Qed.

(** C9: the "More than one acceptable internal standard peak found"
    error is never raised: whenever the filter keeps more than one
    candidate, the disambiguation step returns a list of exactly one
    element, which the final test accepts. *)
Theorem get_istd_area_never_ambiguous (peaks : list Peak) :
  ((1 < Py.len (candidates peaks))%Z ->
   exists m, istd_isolate istd_rt (candidates peaks) = Ok [m])
  /\ get_istd_area peaks istd_rt istd_rt_tolerance istd_area_target
                   istd_area_tolerance
     <> Raise (IstdError "More than one acceptable internal standard peak found.").
Proof.
  split.
  - intros H. destruct (istd_isolate_many _ H) as (c & _ & _ & Hc). eauto.
  - unfold get_istd_area.
    destruct (Z.lt_ge_cases 1 (Py.len (candidates peaks))) as [H | H].
    + destruct (istd_isolate_many _ H) as (c & _ & _ & ->).
      simpl. discriminate.
    + rewrite (istd_isolate_few _ H). simpl.
      destruct (candidates peaks) as [|c [|c' l]]; simpl; try discriminate.
      rewrite !len_cons in H. pose proof (len_nonneg l). lia.
Qed.

End Istd.

Lemma get_istd_area_witness :
  get_istd_area sample3 3 0.5 5000 500 = Ok 5000
  /\ (exists p, In p sample3 /\ in_both_windows 3 3 3000 3000 p
        /\ (forall q, In q sample3 -> in_both_windows 3 3 3000 3000 q ->
              Qabs (PEAK_LS_RT p - 3) <= Qabs (PEAK_LS_RT q - 3))
        /\ get_istd_area sample3 3 3 3000 3000 = Ok (PEAK_LS_AREA p))
  /\ get_istd_area sample3 9 0.5 5000 500
     = Raise (IstdError "No acceptable internal standard peaks found.").
Proof.
  split; [|split].
  - apply (proj1 (get_istd_area_spec 3 0.5 5000 500 sample3)
             [peak 1 0 1 2 1000] (peak 2 2 3 4 5000) [peak 3 4 5 6 2000]).
    + reflexivity.
    + vm_compute. intuition discriminate.
    + intros q [<- | [<- | []]]; vm_compute; intuition.
  - apply (proj1 (proj2 (get_istd_area_spec 3 3 3000 3000 sample3))
             [] (peak 1 0 1 2 1000) [] (peak 2 2 3 4 5000) [peak 3 4 5 6 2000]).
    + reflexivity.
    + vm_compute. intuition discriminate.
    + vm_compute. intuition discriminate.
  - apply (proj2 (proj2 (get_istd_area_spec 9 0.5 5000 500 sample3))).
    intros q [<- | [<- | [<- | []]]]; vm_compute; intuition.
Defined.

Lemma get_istd_area_never_ambiguous_witness :
  exists m, istd_isolate 3 (istd_peak_list sample3 3 3 3000 3000) = Ok [m].
Proof.
  apply (proj1 (get_istd_area_never_ambiguous 3 3 3000 3000 sample3)).
  reflexivity.
Defined.

(* ================================================================== *)
(** ** Slices and sums of areas *)
(* ================================================================== *)

Section Slices.

Context {A : Type}.

Lemma skipn_cons_nth (d : A) (l : list A) : forall i,
  (i < List.length l)%nat -> skipn i l = nth i l d :: skipn (S i) l.
Proof.
  induction l as [|a l IH]; intros i Hi; simpl in Hi; [lia|].
  destruct i as [|i]; [reflexivity|].
  cbn [skipn nth]. apply IH. lia.
Qed.

(** The items of [l] at positions [i], ..., [i + n - 1]. *)
Lemma firstn_skipn_positions (d : A) (l : list A) : forall n i,
  (i + n <= List.length l)%nat ->
  firstn n (skipn i l) = map (fun k => nth k l d) (seq i n).
Proof.
  induction n as [|n IH]; intros i Hi; [reflexivity|].
  rewrite (skipn_cons_nth d) by lia.
  cbn [firstn seq map]. f_equal. apply IH. lia.
Qed.

Lemma firstn_plus (l : list A) : forall m n,
  firstn (m + n) l = firstn m l ++ firstn n (skipn m l).
Proof.
  induction l as [|a l IH]; intros m n.
  - now rewrite skipn_nil, !firstn_nil.
  - destruct m as [|m]; [reflexivity|].
    cbn [Nat.add firstn skipn app]. f_equal. apply IH.
Qed.

(** Consecutive pieces of a list concatenate. *)
Lemma firstn_skipn_split (l : list A) (i j k : nat) :
  (i <= j <= k)%nat ->
  firstn (k - i) (skipn i l)
  = firstn (j - i) (skipn i l) ++ firstn (k - j) (skipn j l).
Proof.
  intros H. replace (k - i)%nat with ((j - i) + (k - j))%nat by lia.
  rewrite firstn_plus, skipn_skipn. do 3 f_equal. lia.
Qed.

Lemma slice_index_inside (n i : Z) :
  (0 <= i <= n)%Z -> Py.slice_index n i = i.
Proof.
  intros H. unfold Py.slice_index.
  destruct (Z.ltb_spec i 0); lia.
Qed.

Lemma slice_index_range (n i : Z) :
  (0 <= n)%Z -> (0 <= Py.slice_index n i <= n)%Z.
Proof.
  intros H. unfold Py.slice_index.
  destruct (Z.ltb_spec i 0); lia.
Qed.

Lemma slice_index_nonneg (n i : Z) :
  (0 <= n)%Z -> (0 <= i)%Z -> Py.slice_index n i = Z.min i n.
Proof.
  intros Hn H. unfold Py.slice_index.
  destruct (Z.ltb_spec i 0); lia.
Qed.

(** A slice with bounds of any sign: the positions between the clipped
    bounds. *)
Lemma slice_positions (d : A) (l : list A) (lo hi : Z) :
  Py.slice l lo hi
  = map (fun k => nth k l d)
        (seq (Z.to_nat (Py.slice_index (Py.len l) lo))
             (Z.to_nat (Py.slice_index (Py.len l) hi
                        - Py.slice_index (Py.len l) lo))).
Proof.
  unfold Py.slice.
  pose proof (slice_index_range (Py.len l) lo (len_nonneg l)) as Hlo.
  pose proof (slice_index_range (Py.len l) hi (len_nonneg l)) as Hhi.
  apply firstn_skipn_positions. unfold Py.len in *. lia.
Qed.

Lemma slice_empty (l : list A) (lo hi : Z) :
  (Py.slice_index (Py.len l) hi <= Py.slice_index (Py.len l) lo)%Z ->
  Py.slice l lo hi = [].
Proof.
  intros H. unfold Py.slice.
  replace (Z.to_nat _) with 0%nat by lia. reflexivity.
Qed.

Lemma slice_split (l : list A) (a b c : Z) :
  (0 <= a <= b)%Z -> (b <= c)%Z ->
  Py.slice l a c = Py.slice l a b ++ Py.slice l b c.
Proof.
  intros Hab Hbc. unfold Py.slice.
  pose proof (len_nonneg l) as Hn.
  rewrite !slice_index_nonneg by lia.
  rewrite !Z2Nat.inj_sub by lia.
  apply firstn_skipn_split. lia.
Qed.

End Slices.

Lemma sum_acc (l : list Q) : forall a, fold_left Qplus l a == a + Py.sum l.
Proof.
  unfold Py.sum. induction l as [|x l IH]; intros a; simpl.
  - ring.
  - rewrite (IH (a + x)), (IH (0 + x)). ring.
Qed.

Lemma sum_app (l1 l2 : list Q) : Py.sum (l1 ++ l2) == Py.sum l1 + Py.sum l2.
Proof. unfold Py.sum at 1. rewrite fold_left_app. apply sum_acc. Qed.

(** Adjacent index ranges add up. *)
Lemma sum_areas_split (peaks : list Peak) (a b c : Z) :
  (0 <= a <= b)%Z -> (b <= c)%Z ->
  sum_areas peaks a c == sum_areas peaks a b + sum_areas peaks b c.
Proof.
  intros Hab Hbc. unfold sum_areas.
  rewrite (slice_split peaks a b c Hab Hbc), map_app. apply sum_app.
Qed.

(** C7: for [0 <= i <= j <= len(peaks)], [sum_areas peaks i j] is the
    sum of the areas of the peaks at positions [i], ..., [j - 1]; on the
    five-peak fixture the range [1, 4) gives the second, third and fourth
    area added by hand. *)
Theorem sum_areas_half_open (peaks : list Peak) (i j : Z) (d : Peak) :
  ((0 <= i <= j)%Z -> (j <= Py.len peaks)%Z ->
   sum_areas peaks i j
   = Py.sum (map (fun k => PEAK_LS_AREA (nth k peaks d))
                 (seq (Z.to_nat i) (Z.to_nat (j - i)))))
  /\ sum_areas fixture5 1 4 = 20 + 40 + 80.
Proof.
  split; [|reflexivity].
  intros Hij Hj. unfold sum_areas.
  rewrite (slice_positions d), map_map.
  now rewrite !slice_index_inside by lia.
Qed.

Lemma sum_areas_half_open_witness :
  sum_areas sample3 0 2
  = Py.sum (map (fun k => PEAK_LS_AREA (nth k sample3 (peak 0 0 0 0 0)))
                (seq (Z.to_nat 0) (Z.to_nat (2 - 0)))).
Proof.
  apply (proj1 (sum_areas_half_open sample3 0 2 (peak 0 0 0 0 0)));
    vm_compute; intuition discriminate.
Defined.

(** C10 as stated fails: bounds [0] and [-1] are reversed, yet the slice
    [peaks[0:-1]] keeps every peak but the last and the sum is not 0. *)
Lemma sum_areas_reversed_bounds_nonzero :
  (0 >= -1)%Z /\ sum_areas sample3 0 (-1) = 6000
  /\ ~ sum_areas sample3 0 (-1) == 0.
Proof.
  split; [lia|]. split; [reflexivity|]. vm_compute. discriminate.
Qed.

(** C10, amended: [sum_areas] is total and returns the sum over the
    slice whose bounds are clipped to the list, a negative bound counting
    from the end of the list; the result is 0 when
    [low_index >= high_index] and the two bounds are both non-negative or
    both negative, and whenever [low_index >= len(peaks)]; a
    [high_index] beyond the end of the list sums up to the last peak. *)
Theorem sum_areas_degenerate_bounds (peaks : list Peak) (lo hi : Z) (d : Peak) :
  sum_areas peaks lo hi
  = Py.sum (map (fun k => PEAK_LS_AREA (nth k peaks d))
                (seq (Z.to_nat (Py.slice_index (Py.len peaks) lo))
                     (Z.to_nat (Py.slice_index (Py.len peaks) hi
                                - Py.slice_index (Py.len peaks) lo))))
  /\ ((hi <= lo)%Z -> (0 <= hi \/ lo < 0)%Z -> sum_areas peaks lo hi = 0)
  /\ ((Py.len peaks <= lo)%Z -> sum_areas peaks lo hi = 0)
  /\ ((0 <= lo)%Z -> (Py.len peaks <= hi)%Z ->
      sum_areas peaks lo hi = sum_areas peaks lo (Py.len peaks)).
Proof.
  pose proof (len_nonneg peaks) as Hn.
  split; [|split; [|split]].
  - unfold sum_areas. now rewrite (slice_positions d), map_map.
  - intros Hle Hsign. unfold sum_areas. rewrite slice_empty; [reflexivity|].
    unfold Py.slice_index.
    destruct (Z.ltb_spec hi 0), (Z.ltb_spec lo 0); lia.
  - intros Hlo. unfold sum_areas. rewrite slice_empty; [reflexivity|].
    unfold Py.slice_index.
    destruct (Z.ltb_spec hi 0), (Z.ltb_spec lo 0); lia.
  - intros Hlo Hhi. unfold sum_areas, Py.slice.
    rewrite (slice_index_nonneg _ hi), (slice_index_nonneg _ (Py.len peaks))
      by lia.
    now rewrite Z.min_r, Z.min_id by lia.
Qed.

Lemma sum_areas_degenerate_bounds_witness :
  sum_areas sample3 2 1 = 0 /\ sum_areas sample3 (-1) (-2) = 0
  /\ sum_areas sample3 7 9 = 0
  /\ sum_areas sample3 1 9 = sum_areas sample3 1 (Py.len sample3).
Proof.
  pose proof (sum_areas_degenerate_bounds sample3 2 1 (peak 0 0 0 0 0)) as H1.
  pose proof (sum_areas_degenerate_bounds sample3 (-1) (-2) (peak 0 0 0 0 0)) as H2.
  pose proof (sum_areas_degenerate_bounds sample3 7 9 (peak 0 0 0 0 0)) as H3.
  pose proof (sum_areas_degenerate_bounds sample3 1 9 (peak 0 0 0 0 0)) as H4.
  split; [|split; [|split]].
  - apply (proj1 (proj2 H1)); lia.
  - apply (proj1 (proj2 H2)); lia.
  - apply (proj1 (proj2 (proj2 H3))). vm_compute. discriminate.
  - apply (proj2 (proj2 (proj2 H4))); vm_compute; discriminate.
Defined.

(* ================================================================== *)
(** ** Concentration of a compound in a sample *)
(* ================================================================== *)

Lemma truediv_nonzero (a b : Q) : ~ b == 0 -> Py.truediv a b = Ok (a / b).
Proof.
  intros H. unfold Py.truediv.
  destruct (Qeq_bool b 0) eqn:E; [|reflexivity].
  now apply Qeq_bool_iff in E.
Qed.

Lemma truediv_zero (a b : Q) : b == 0 -> Py.truediv a b = Raise ZeroDivisionError.
Proof.
  intros H. unfold Py.truediv. apply Qeq_bool_iff in H. now rewrite H.
Qed.

Lemma truediv_cases (a b : Q) :
  (b == 0 /\ Py.truediv a b = Raise ZeroDivisionError)
  \/ (~ b == 0 /\ Py.truediv a b = Ok (a / b)).
Proof.
  destruct (Qeq_dec b 0) as [H | H].
  - left. split; [assumption | now apply truediv_zero].
  - right. split; [assumption | now apply truediv_nonzero].
Qed.

(** [round] moves its argument by at most half a unit of the last place
    kept. *)
Lemma round_error (x : Q) (ndigits : Z) :
  Qabs (Py.round x ndigits - x) <= (1 # 2) / 10 ^ ndigits.
Proof.
  unfold Py.round.
  assert (Hpow : 0 < 10 ^ ndigits) by (apply Qpower_0_lt; reflexivity).
  set (pow := 10 ^ ndigits) in *.
  pose proof (Qfloor_le (Qabs x * pow + (1 # 2))) as Hlo.
  pose proof (Qlt_floor (Qabs x * pow + (1 # 2))) as Hhi.
  rewrite inject_Z_plus in Hhi. change (inject_Z 1) with 1 in Hhi.
  set (z := inject_Z (Qfloor (Qabs x * pow + (1 # 2)))) in *.
  clearbody z.
  assert (Hinv : 0 <= / pow) by (apply Qinv_le_0_compat; lra).
  assert (Hbound : forall s, Qabs (s - x * pow) <= 1 # 2 ->
                             Qabs (s / pow - x) <= (1 # 2) / pow).
  { intros s Hs.
    assert (E : s / pow - x == (s - x * pow) * / pow) by (field; lra).
    rewrite E, Qabs_Qmult, (Qabs_pos (/ pow)) by assumption.
    unfold Qdiv. now apply Qmult_le_compat_r. }
  apply Hbound.
  destruct (Py.Qlt_bool x 0) eqn:Hsign.
  - apply Qlt_bool_iff in Hsign.
    assert (Habs : Qabs x == - x) by (apply Qabs_neg; lra).
    rewrite Habs in Hlo, Hhi.
    apply Qabs_Qle_condition. split; lra.
  - apply Qlt_bool_false in Hsign.
    assert (Habs : Qabs x == x) by (apply Qabs_pos; lra).
    rewrite Habs in Hlo, Hhi.
    apply Qabs_Qle_condition. split; lra.
Qed.

Section Concentration.

Variable opx : opx_constants.
Variables (peaks : list Peak) (blank : BlankAverage.t).
Variables low_index high_index : Z.
Variables istd_rt istd_rt_tolerance istd_area_target istd_area_tolerance : Q.
Variables calibration_slope calibration_intercept : Q.
Variables istd_concentration dilution_factor : Q.


(** Once the ISTD is located and [blank.area] holds a number, a zero
    divisor makes the call raise [ZeroDivisionError], whichever of the
    three divisions meets it first. *)
Lemma zero_divisor_raises (istd a : Q) :
  get_istd_area peaks istd_rt istd_rt_tolerance istd_area_target
                istd_area_tolerance = Ok istd ->
  BlankAverage.area blank = Some a ->
  istd == 0 \/ calibration_slope == 0 \/ BlankAverage.istd blank == 0 ->
  calculate_sample_concentration opx peaks blank low_index high_index
    istd_rt istd_rt_tolerance istd_area_target istd_area_tolerance
    calibration_slope calibration_intercept istd_concentration dilution_factor
  = Raise ZeroDivisionError.
Proof.
  intros Hloc Harea Hzero.
  unfold calculate_sample_concentration, concentration_ratio, blank_area.
  rewrite Hloc, Harea. cbn [Py.bind].
  destruct (truediv_cases a (BlankAverage.istd blank)) as [[_ ->] | [Hb ->]];
    [reflexivity|]. cbn [Py.bind].
  match goal with |- Py.bind (Py.truediv ?n istd) _ = _ =>
    destruct (truediv_cases n istd) as [[_ ->] | [Hi ->]] end;
    [reflexivity|]. cbn [Py.bind].
  match goal with |- Py.bind (Py.truediv ?n calibration_slope) _ = _ =>
    destruct (truediv_cases n calibration_slope) as [[_ ->] | [Hs ->]] end;
    [reflexivity|]. tauto.
Qed.

(** C5, amended: when the ISTD lookup succeeds and [blank.area] holds a
    number, a zero located ISTD area, a zero calibration slope or a zero
    [blank.istd] makes the computation raise [ZeroDivisionError]; and in
    every call in which one of the three is zero, whether or not the
    lookup succeeds, no value is returned. *)
Theorem calculate_sample_concentration_zero_division :
  calibration_slope == 0 \/ BlankAverage.istd blank == 0
  \/ (exists istd,
        get_istd_area peaks istd_rt istd_rt_tolerance istd_area_target
                      istd_area_tolerance = Ok istd /\ istd == 0) ->
  (forall istd a,
      get_istd_area peaks istd_rt istd_rt_tolerance istd_area_target
                    istd_area_tolerance = Ok istd ->
      BlankAverage.area blank = Some a ->
      calculate_sample_concentration opx peaks blank low_index high_index
        istd_rt istd_rt_tolerance istd_area_target istd_area_tolerance
        calibration_slope calibration_intercept istd_concentration
        dilution_factor
      = Raise ZeroDivisionError)
  /\ (forall v,
      calculate_sample_concentration opx peaks blank low_index high_index
        istd_rt istd_rt_tolerance istd_area_target istd_area_tolerance
        calibration_slope calibration_intercept istd_concentration
        dilution_factor
      <> Ok v).
Proof.
  intros Hzero.
  assert (Hmain : forall istd a,
    get_istd_area peaks istd_rt istd_rt_tolerance istd_area_target
                  istd_area_tolerance = Ok istd ->
    BlankAverage.area blank = Some a ->
    calculate_sample_concentration opx peaks blank low_index high_index
      istd_rt istd_rt_tolerance istd_area_target istd_area_tolerance
      calibration_slope calibration_intercept istd_concentration
      dilution_factor
    = Raise ZeroDivisionError).
  { intros istd a Hloc Harea. apply (zero_divisor_raises istd a Hloc Harea).
    destruct Hzero as [H | [H | (i & Hi & H)]]; [tauto | tauto |].
    rewrite Hloc in Hi. injection Hi as <-. tauto. }
  split; [exact Hmain|].
  intros v Hv.
  destruct (get_istd_area peaks istd_rt istd_rt_tolerance istd_area_target
                          istd_area_tolerance) as [istd | e] eqn:Hloc.
  - destruct (BlankAverage.area blank) as [a|] eqn:Harea.
    + rewrite (Hmain istd a eq_refl eq_refl) in Hv. discriminate.
    + unfold calculate_sample_concentration, blank_area in Hv.
      rewrite Hloc, Harea in Hv. discriminate.
  - unfold calculate_sample_concentration in Hv.
    rewrite Hloc in Hv. discriminate.
Qed.

End Concentration.

(** C8: for a non-zero slope, the inversion step applied to
    [c * slope + intercept] succeeds and gives back [c] exactly; after
    the scaling and the final rounding the reported value is within half
    a unit of the last decimal place of the value built from [c]. *)
Theorem calibration_inversion_round_trip (slope intercept c : Q) :
  ~ slope == 0 ->
  exists r,
    concentration_ratio (c * slope + intercept) intercept slope = Ok r
    /\ r == c
    /\ forall istd_concentration dilution_factor ndigits,
         Qabs (Py.round (r * istd_concentration * dilution_factor) ndigits
               - c * istd_concentration * dilution_factor)
         <= (1 # 2) / 10 ^ ndigits.
Proof.
  intros Hslope. unfold concentration_ratio.
  rewrite (truediv_nonzero _ _ Hslope).
  eexists. split; [reflexivity|].
  assert (E : (c * slope + intercept - intercept) / slope == c)
    by (field; assumption).
  split; [exact E|].
  intros ic df n.
  assert (E' : c * ic * df
               == (c * slope + intercept - intercept) / slope * ic * df)
    by (rewrite E; reflexivity).
  rewrite E'. apply round_error.
Qed.

Lemma calibration_inversion_round_trip_witness :
  exists r,
    concentration_ratio (3 * 2 + 0.5) 0.5 2 = Ok r
    /\ r == 3
    /\ forall istd_concentration dilution_factor ndigits,
         Qabs (Py.round (r * istd_concentration * dilution_factor) ndigits
               - 3 * istd_concentration * dilution_factor)
         <= (1 # 2) / 10 ^ ndigits.
Proof.
  apply (calibration_inversion_round_trip 2 0.5 3). vm_compute. discriminate.
Defined.


Lemma calculate_sample_concentration_zero_division_witness :
  (forall istd a,
      get_istd_area sample3 3 0.5 5000 500 = Ok istd ->
      BlankAverage.area blank_zero_istd = Some a ->
      calculate_sample_concentration opx_demo sample3 blank_zero_istd 0 2
        3 0.5 5000 500 2 0.1 10 5 = Raise ZeroDivisionError)
  /\ (forall v,
      calculate_sample_concentration opx_demo sample3 blank_zero_istd 0 2
        3 0.5 5000 500 2 0.1 10 5 <> Ok v).
Proof.
  apply (calculate_sample_concentration_zero_division opx_demo sample3
           blank_zero_istd 0 2 3 0.5 5000 500 2 0.1 10 5).
  right; left. reflexivity.
Defined.

(** C5 as stated fails: with a zero slope and a zero [blank.istd], but no
    peak of the sample in the ISTD windows, the lookup of op.py 114
    raises [IstdError] before any division is reached, so the error is
    not a division by zero. *)
Lemma calculate_sample_concentration_istd_error_first :
  (0 : Q) == 0 /\ BlankAverage.istd blank_zero_istd == 0
  /\ calculate_sample_concentration opx_demo sample3 blank_zero_istd 0 2
       9 0.5 5000 500 0 0.1 10 5
     = Raise (IstdError "No acceptable internal standard peaks found.")
  /\ calculate_sample_concentration opx_demo sample3 blank_zero_istd 0 2
       9 0.5 5000 500 0 0.1 10 5
     <> Raise ZeroDivisionError.
Proof.
  split; [reflexivity|]. split; [reflexivity|].
  split; [reflexivity | discriminate].
Qed.

(* ================================================================== *)
(** ** Blank average *)
(* ================================================================== *)

Lemma mean_nonempty (l : list Q) :
  l <> [] -> mean l = Ok (Py.sum l / inject_Z (Py.len l)).
Proof.
  intros H. unfold mean. apply truediv_nonzero.
  destruct l as [|x l]; [congruence|].
  rewrite len_cons. pose proof (len_nonneg l).
  unfold Qeq. simpl. lia.
Qed.

Lemma sum_snoc (l : list Q) (x : Q) : Py.sum (l ++ [x]) == Py.sum l + x.
Proof. rewrite sum_app. unfold Py.sum at 2. simpl. ring. Qed.

Lemma comprehension_all_Ok {A B} (f : A -> result B) (l : list A) :
  Forall (fun x => exists y, f x = Ok y) l ->
  exists ys, Py.comprehension f l = Ok ys /\ List.length ys = List.length l.
Proof.
  induction 1 as [|x l (y & Hy) _ (ys & Hys & Hlen)]; simpl.
  - now exists [].
  - rewrite Hy, Hys. simpl. exists (y :: ys). simpl. now rewrite Hlen.
Qed.

Section BlankAverageFull.

Variable opx : opx_constants.

Ltac frame_proj :=
  cbn [areas_c6_c10 areas_c10_c16 areas_c16_c34 areas_c34_c40 areas_c10_c40
       self_area_c6_c10 self_area_c10_c16 self_area_c16_c34
       self_area_c34_c40 self_area_c10_c40 init_frame0].

Lemma snoc_not_nil {A} (l : list A) (x : A) : l ++ [x] <> [].
Proof. destruct l; discriminate. Qed.

Lemma init_body_full (f : init_frame) (blank : list Peak) :
  sums_agree f -> resolved_in_order opx blank ->
  exists f', init_body opx false f blank = Ok f'
             /\ sums_agree f' /\ means_set f'.
Proof.
  intros (L16 & L34 & L40 & Hsum)
         (i10 & i16 & i34 & i40 & H10 & H16 & H34 & H40 & Ha & Hb).
  unfold init_body.
  rewrite H10, H16, H34, H40. cbn [Py.bind].
  rewrite !mean_nonempty by apply snoc_not_nil. cbn [Py.bind].
  eexists. split; [reflexivity|]. split.
  - unfold sums_agree. frame_proj. rewrite !length_app, L16, L34, L40.
    repeat split; try reflexivity.
    rewrite !sum_snoc, Hsum.
    rewrite (sum_areas_split blank i10 i34 i40) by lia.
    rewrite (sum_areas_split blank i10 i16 i34) by lia.
    ring.
  - unfold means_set. frame_proj.
    split; [apply snoc_not_nil | repeat split].
Qed.

Lemma for_each_full (blank_data : list (list Peak)) : forall f,
  sums_agree f -> blank_data <> [] ->
  Forall (resolved_in_order opx) blank_data ->
  exists f', Py.for_each (init_body opx false) blank_data f = Ok f'
             /\ sums_agree f' /\ means_set f'.
Proof.
  induction blank_data as [|blank rest IH]; intros f Hf Hne Hall;
    [congruence|].
  inversion Hall as [|? ? Hblank Hrest]; subst.
  destruct (init_body_full f blank Hf Hblank) as (f1 & E1 & Hag & Hset).
  cbn [Py.for_each]. rewrite E1. cbn [Py.bind].
  destruct rest as [|blank' rest'].
  - exists f1. split; [reflexivity | split; assumption].
  - apply IH; [assumption | discriminate | assumption].
Qed.

(** With equal denominators, the mean of the whole is the sum of the
    means of the parts. *)
Lemma means_add (a b c t n : Q) :
  ~ n == 0 -> t == a + b + c -> t / n == a / n + b / n + c / n.
Proof. intros Hn ->. field. assumption. Qed.

(** C6, amended: in full-TRH mode, for a non-empty list of blank runs
    in each of which the boundaries resolve to non-negative indices in
    ascending order and the ISTD lookup succeeds, the constructor
    returns a [BlankAverage] whose [area_c10_c40] equals the sum of
    [area_c10_c16], [area_c16_c34] and [area_c34_c40]. *)
Theorem BlankAverage_full_invariant (blank_data : list (list Peak))
    (istd_rt istd_rt_tolerance istd_area_target istd_area_tolerance : Q) :
  blank_data <> [] ->
  Forall (resolved_in_order opx) blank_data ->
  Forall (fun blank =>
            exists a, get_istd_area blank istd_rt istd_rt_tolerance
                        istd_area_target istd_area_tolerance = Ok a)
         blank_data ->
  exists b x16 x34 x40 x1040,
    BlankAverage__init__ opx blank_data false istd_rt istd_rt_tolerance
                         istd_area_target istd_area_tolerance = Ok b
    /\ BlankAverage.area_c10_c16 b = Some x16
    /\ BlankAverage.area_c16_c34 b = Some x34
    /\ BlankAverage.area_c34_c40 b = Some x40
    /\ BlankAverage.area_c10_c40 b = Some x1040
    /\ x1040 == x16 + x34 + x40.
Proof.
  intros Hne Hres Histd.
  destruct (for_each_full blank_data init_frame0) as (f & Ef & Hag & Hset);
    try assumption.
  { unfold sums_agree. frame_proj. repeat split. }
  destruct (comprehension_all_Ok _ _ Histd) as (istds & Eistds & Hlen).
  unfold BlankAverage__init__.
  rewrite Ef, Eistds. cbn [Py.bind].
  rewrite mean_nonempty.
  2:{ destruct istds; [|discriminate].
      destruct blank_data; [congruence | discriminate]. }
  cbn [Py.bind].
  destruct Hag as (L16 & L34 & L40 & Hsum).
  destruct Hset as (Hnil & E16 & E34 & E40 & E1040).
  do 5 eexists. split; [reflexivity|].
  cbn [BlankAverage.area_c10_c16 BlankAverage.area_c16_c34
       BlankAverage.area_c34_c40 BlankAverage.area_c10_c40].
  repeat (split; [eassumption|]).
  unfold Py.len. rewrite L16, L34, L40.
  apply means_add; [|exact Hsum].
  destruct (areas_c10_c40 f); [congruence|].
  unfold Qeq. simpl. lia.
Qed.

End BlankAverageFull.

Lemma BlankAverage_full_invariant_witness :
  exists b x16 x34 x40 x1040,
    BlankAverage__init__ opx_demo [blank_separated; blank_separated] false
                         12 1 200 10 = Ok b
    /\ BlankAverage.area_c10_c16 b = Some x16
    /\ BlankAverage.area_c16_c34 b = Some x34
    /\ BlankAverage.area_c34_c40 b = Some x40
    /\ BlankAverage.area_c10_c40 b = Some x1040
    /\ x1040 == x16 + x34 + x40.
Proof.
  assert (Hres : resolved_in_order opx_demo blank_separated).
  { exists 1%Z, 2%Z, 3%Z, 4%Z. repeat split; try reflexivity; lia. }
  assert (Histd : exists a, get_istd_area blank_separated 12 1 200 10 = Ok a).
  { exists 200. reflexivity. }
  apply (BlankAverage_full_invariant opx_demo
           [blank_separated; blank_separated] 12 1 200 10).
  - discriminate.
  - repeat constructor; exact Hres.
  - repeat constructor; exact Histd.
Defined.

(** C6 as stated fails: on a blank run whose first peak overlaps the
    second, every boundary and the ISTD resolve, but the end index of
    C16-C34 lies before the end index of C10-C16, so the C10-C40 average
    (50) is not the sum of the three fraction averages (20, 0 and 50). *)
Lemma BlankAverage_overlapping_run_breaks_invariant :
  [blank_overlapping] <> []
  /\ get_fraction_start_index blank_overlapping (C10_C16_START opx_demo) = Ok 1%Z
  /\ get_fraction_end_index blank_overlapping (C10_C16_END opx_demo) = Ok 2%Z
  /\ get_fraction_end_index blank_overlapping (C16_C34_END opx_demo) = Ok 1%Z
  /\ get_fraction_end_index blank_overlapping (C34_C40_END opx_demo) = Ok 3%Z
  /\ get_istd_area blank_overlapping 2 0.5 20 5 = Ok 20
  /\ exists b,
       BlankAverage__init__ opx_demo [blank_overlapping] false 2 0.5 20 5 = Ok b
       /\ BlankAverage.area_c10_c16 b = Some 20
       /\ BlankAverage.area_c16_c34 b = Some 0
       /\ BlankAverage.area_c34_c40 b = Some 50
       /\ BlankAverage.area_c10_c40 b = Some 50
       /\ ~ 50 == 20 + 0 + 50.
Proof.
  split; [discriminate|].
  do 5 (split; [reflexivity|]).
  eexists. split; [reflexivity|].
  do 4 (split; [reflexivity|]).
  vm_compute. discriminate.
Qed.


(* ================================================================== *)
(** ** Further properties: minimum search and ties *)
(* ================================================================== *)

Section FirstMinimal.

Context {A : Type} (key : A -> Q).

Lemma min_fold_stays (xs : list A) (x : A) :
  (forall y, In y xs -> key x <= key y) ->
  fold_left (Py.min_step key) xs x = x.
Proof.
  induction xs as [|a xs IH]; intros H; [reflexivity|].
  cbn [fold_left]. unfold Py.min_step at 2.
  assert (Ha : Py.Qlt_bool (key a) (key x) = false).
  { apply Qlt_bool_false. apply H. now left. }
  rewrite Ha. apply IH. intros y Hy. apply H. now right.
Qed.

(** [min] returns the first item whose key is minimal. *)
Lemma min_first_minimal (l1 l2 : list A) (x : A) :
  (forall y, In y l1 -> key x < key y) ->
  (forall y, In y l2 -> key x <= key y) ->
  Py.min key (l1 ++ x :: l2) = Ok x.
Proof.
  intros H1 H2. destruct l1 as [|a l1]; cbn [app Py.min].
  - now rewrite min_fold_stays.
  - rewrite fold_left_app. cbn [fold_left].
    destruct (min_fold_spec key l1 a) as (Hin & _ & _).
    set (m := fold_left (Py.min_step key) l1 a) in *.
    assert (Hm : key x < key m).
    { apply H1. destruct Hin as [-> | Hin]; [now left | now right]. }
    unfold Py.min_step at 2.
    apply Qlt_bool_iff in Hm. rewrite Hm.
    f_equal. now apply min_fold_stays.
Qed.

End FirstMinimal.

Lemma filter_middle {A} (c : A -> bool) (l1 l2 : list A) (x : A) :
  c x = true -> filter c (l1 ++ x :: l2) = filter c l1 ++ x :: filter c l2.
Proof. intros H. rewrite filter_app. cbn [filter]. now rewrite H. Qed.

(** The first item that passes the filter with a minimal key wins. *)
Lemma min_map_filter_first {A B} (key : B -> Q) (f : A -> B) (c : A -> bool)
    (l1 l2 : list A) (x : A) :
  c x = true ->
  (forall y, In y l1 -> c y = true -> key (f x) < key (f y)) ->
  (forall y, In y l2 -> c y = true -> key (f x) <= key (f y)) ->
  Py.min key (map f (filter c (l1 ++ x :: l2))) = Ok (f x).
Proof.
  intros Hx H1 H2. rewrite (filter_middle c l1 l2 x Hx), map_app.
  cbn [map]. apply min_first_minimal.
  - intros y Hy. apply in_map_filter in Hy.
    destruct Hy as (a & Ha & Hc & ->). now apply H1.
  - intros y Hy. apply in_map_filter in Hy.
    destruct Hy as (a & Ha & Hc & ->). now apply H2.
Qed.

(** X1: of the peaks that pass the filter [end_rt - rt_end >= 0], the
    first in list order whose difference [end_rt - rt_end] is minimal
    gives the result of [get_fraction_end_index]: a later peak wins
    only with a strictly smaller difference. *)
Theorem get_fraction_end_index_first_of_ties
    (l1 l2 : list Peak) (p : Peak) (rt_end : Q) :
  0 <= PEAK_LS_END p - rt_end ->
  (forall q, In q l1 -> 0 <= PEAK_LS_END q - rt_end ->
             PEAK_LS_END p - rt_end < PEAK_LS_END q - rt_end) ->
  (forall q, In q l2 -> 0 <= PEAK_LS_END q - rt_end ->
             PEAK_LS_END p - rt_end <= PEAK_LS_END q - rt_end) ->
  get_fraction_end_index (l1 ++ p :: l2) rt_end = Ok (PEAK_LS_IDX p).
Proof.
  intros Hp H1 H2. unfold get_fraction_end_index.
  rewrite min_map_filter_first; [reflexivity | | |].
  - now apply Qle_bool_iff.
  - intros q Hq Hc. apply Qle_bool_iff in Hc. cbn [snd]. now apply H1.
  - intros q Hq Hc. apply Qle_bool_iff in Hc. cbn [snd]. now apply H2.
Qed.

Lemma get_fraction_end_index_first_of_ties_witness :
  get_fraction_end_index tied_ends 3 = Ok 2%Z.
Proof.
  apply (get_fraction_end_index_first_of_ties
           [peak 1 0 1 2 10] [peak 3 2 3 4 30; peak 4 4 5 6 40]
           (peak 2 1 2 4 20) 3).
  - vm_compute. discriminate.
  - intros q [<- | []] H. vm_compute in H. now elim H.
  - intros q [<- | [<- | []]] _; vm_compute; discriminate.
Defined.

(** X2: of the peaks that pass the filter [start_rt - rt_start <= 0],
    the first in list order whose distance [|start_rt - rt_start|] is
    minimal gives the result of [get_fraction_start_index]: a later peak
    wins only with a strictly smaller distance. *)
Theorem get_fraction_start_index_first_of_ties
    (l1 l2 : list Peak) (p : Peak) (rt_start : Q) :
  PEAK_LS_START p - rt_start <= 0 ->
  (forall q, In q l1 -> PEAK_LS_START q - rt_start <= 0 ->
             Qabs (PEAK_LS_START p - rt_start)
             < Qabs (PEAK_LS_START q - rt_start)) ->
  (forall q, In q l2 -> PEAK_LS_START q - rt_start <= 0 ->
             Qabs (PEAK_LS_START p - rt_start)
             <= Qabs (PEAK_LS_START q - rt_start)) ->
  get_fraction_start_index (l1 ++ p :: l2) rt_start = Ok (PEAK_LS_IDX p).
Proof.
  intros Hp H1 H2. unfold get_fraction_start_index.
  rewrite min_map_filter_first; [reflexivity | | |].
  - now apply Qle_bool_iff.
  - intros q Hq Hc. apply Qle_bool_iff in Hc. cbn [snd]. now apply H1.
  - intros q Hq Hc. apply Qle_bool_iff in Hc. cbn [snd]. now apply H2.
Qed.

Lemma get_fraction_start_index_first_of_ties_witness :
  get_fraction_start_index sample3 3 = Ok 2%Z.
Proof.
  apply (get_fraction_start_index_first_of_ties
           [peak 1 0 1 2 1000] [peak 3 4 5 6 2000] (peak 2 2 3 4 5000) 3).
  - vm_compute. discriminate.
  - intros q [<- | []] _. reflexivity.
  - intros q [<- | []] H. vm_compute in H. now elim H.
Defined.

(** A resolved end index is the stored index of a peak of the list that
    ends at or after the target. *)
Lemma get_fraction_end_index_Ok_In (peaks : list Peak) (rt_end : Q) (i : Z) :
  get_fraction_end_index peaks rt_end = Ok i ->
  exists q, In q peaks /\ PEAK_LS_IDX q = i /\ rt_end <= PEAK_LS_END q.
Proof.
  unfold get_fraction_end_index.
  destruct (Py.min snd _) as [m|e] eqn:Hm; [|discriminate].
  cbn [Py.bind]. intros [= <-].
  apply min_Ok_In, in_map_filter in Hm.
  destruct Hm as (q & Hq & Hc & ->). apply Qle_bool_iff in Hc.
  exists q. repeat split; [assumption | lra].
Qed.

(** When no later peak ends before the first one, the first peak decides:
    it is the answer if it ends at or after the target, and is skipped
    otherwise. *)
Lemma get_fraction_end_index_head (p : Peak) (l : list Peak) (rt_end : Q) :
  (forall q, In q l -> PEAK_LS_END p <= PEAK_LS_END q) ->
  get_fraction_end_index (p :: l) rt_end
  = if Qle_bool 0 (PEAK_LS_END p - rt_end) then Ok (PEAK_LS_IDX p)
    else get_fraction_end_index l rt_end.
Proof.
  intros Hl. unfold get_fraction_end_index. cbn [filter].
  destruct (Qle_bool 0 (PEAK_LS_END p - rt_end)); [|reflexivity].
  cbn [map Py.min Py.bind]. rewrite min_fold_stays; [reflexivity|].
  intros y Hy. apply in_map_filter in Hy. destruct Hy as (q & Hq & _ & ->).
  cbn [snd]. specialize (Hl q Hq). lra.
Qed.

(** X3: on a peak list in ascending order of end time and index, a later
    target never resolves to an earlier index: the end index is monotone
    in the boundary. *)
Theorem get_fraction_end_index_monotone (peaks : list Peak) (rt1 rt2 : Q)
    (i1 i2 : Z) :
  StronglySorted ends_before peaks ->
  rt1 <= rt2 ->
  get_fraction_end_index peaks rt1 = Ok i1 ->
  get_fraction_end_index peaks rt2 = Ok i2 ->
  (i1 <= i2)%Z.
Proof.
  intros Hsorted Hrt. induction Hsorted as [|p l Hl IH Hp].
  - discriminate.
  - assert (Hends : forall q, In q l -> PEAK_LS_END p <= PEAK_LS_END q).
    { intros q Hq. rewrite Forall_forall in Hp. now apply Hp. }
    rewrite !(get_fraction_end_index_head p l _ Hends).
    destruct (Qle_bool 0 (PEAK_LS_END p - rt2)) eqn:E2.
    + apply Qle_bool_iff in E2.
      assert (E1 : Qle_bool 0 (PEAK_LS_END p - rt1) = true)
        by (apply Qle_bool_iff; lra).
      rewrite E1. intros [= <-] [= <-]. lia.
    + destruct (Qle_bool 0 (PEAK_LS_END p - rt1)); [|exact IH].
      intros [= <-] H2.
      apply get_fraction_end_index_Ok_In in H2.
      destruct H2 as (q & Hq & <- & _).
      rewrite Forall_forall in Hp. destruct (Hp q Hq). lia.
Qed.

Lemma get_fraction_end_index_monotone_witness :
  get_fraction_end_index sample3 3 = Ok 2%Z
  /\ get_fraction_end_index sample3 5 = Ok 3%Z
  /\ (2 <= 3)%Z.
Proof.
  split; [reflexivity|]. split; [reflexivity|].
  apply (get_fraction_end_index_monotone sample3 3 5 2 3).
  - repeat constructor; vm_compute; discriminate.
  - vm_compute. discriminate.
  - reflexivity.
  - reflexivity.
Defined.

(* ================================================================== *)
(** ** Further properties: internal standard *)
(* ================================================================== *)

Section IstdSelection.

Variables istd_rt istd_rt_tolerance istd_area_target istd_area_tolerance : Q.

Local Abbreviation windows :=
  (in_both_windows istd_rt istd_rt_tolerance istd_area_target
                   istd_area_tolerance).

(** A located area belongs to a peak of the list that lies in both
    windows and is as close to [istd_rt] as any other such peak. *)
Lemma get_istd_area_Ok_In (peaks : list Peak) (a : Q) :
  get_istd_area peaks istd_rt istd_rt_tolerance istd_area_target
                istd_area_tolerance = Ok a ->
  exists p, In p peaks /\ windows p /\ PEAK_LS_AREA p = a
    /\ forall q, In q peaks -> windows q ->
         Qabs (PEAK_LS_RT p - istd_rt) <= Qabs (PEAK_LS_RT q - istd_rt).
Proof.
  unfold get_istd_area.
  set (cands := istd_peak_list peaks istd_rt istd_rt_tolerance
                               istd_area_target istd_area_tolerance).
  assert (Hcands : forall c, In c cands <->
            exists p, In p peaks /\ windows p
                      /\ c = (PEAK_LS_RT p, PEAK_LS_AREA p))
    by (intros c; apply candidates_In).
  destruct (Z.lt_ge_cases 1 (Py.len cands)) as [Hlen | Hlen].
  - destruct (istd_isolate_many istd_rt cands Hlen) as (c & Hc & Hmin & ->).
    cbn. intros [= <-].
    apply Hcands in Hc. destruct Hc as (p & Hp & Hw & ->).
    exists p. repeat split; try assumption; try apply Hw.
    intros q Hq Hwq. apply (Hmin (PEAK_LS_RT q, PEAK_LS_AREA q)).
    apply Hcands. now exists q.
  - rewrite (istd_isolate_few istd_rt cands Hlen). cbn [Py.bind].
    destruct cands as [|c [|c' l]] eqn:E.
    + discriminate.
    + cbn. intros [= <-].
      destruct (proj1 (Hcands c) (or_introl eq_refl)) as (p & Hp & Hw & ->).
      exists p. repeat split; try assumption; try apply Hw.
      intros q Hq Hwq.
      assert (Hin : In (PEAK_LS_RT q, PEAK_LS_AREA q)
                       [(PEAK_LS_RT p, PEAK_LS_AREA p)])
        by (apply Hcands; now exists q).
      destruct Hin as [[= -> _] | []]. apply Qle_refl.
    + rewrite !len_cons in Hlen. pose proof (len_nonneg l). lia.
Qed.

(** X5: of the peaks in both windows that are closest to [istd_rt],
    [get_istd_area] returns the area of the one that comes first in the
    list. *)
Theorem get_istd_area_first_of_ties (l1 l2 : list Peak) (p : Peak) :
  windows p ->
  (forall q, In q l1 -> windows q ->
     Qabs (PEAK_LS_RT p - istd_rt) < Qabs (PEAK_LS_RT q - istd_rt)) ->
  (forall q, In q l2 -> windows q ->
     Qabs (PEAK_LS_RT p - istd_rt) <= Qabs (PEAK_LS_RT q - istd_rt)) ->
  get_istd_area (l1 ++ p :: l2) istd_rt istd_rt_tolerance istd_area_target
                istd_area_tolerance = Ok (PEAK_LS_AREA p).
Proof.
  intros Hp H1 H2. unfold get_istd_area, istd_isolate.
  destruct (1 <? Py.len _)%Z eqn:Hlen.
  - unfold istd_peak_list. rewrite map_map.
    rewrite min_map_filter_first; [reflexivity | | |].
    + now apply istd_in_window_iff.
    + intros q Hq Hc. apply istd_in_window_iff in Hc. cbn [fst]. now apply H1.
    + intros q Hq Hc. apply istd_in_window_iff in Hc. cbn [fst]. now apply H2.
  - apply Z.ltb_ge in Hlen. cbn [Py.bind].
    rewrite candidates_app, (candidates_cons_in _ _ _ _ p l2 Hp) in *.
    destruct (istd_peak_list l1 _ _ _ _) as [|c1 r1].
    + destruct (istd_peak_list l2 _ _ _ _) as [|c2 r2]; [reflexivity|].
      cbn [app] in Hlen. rewrite !len_cons in Hlen.
      pose proof (len_nonneg r2). lia.
    + exfalso. cbn [app] in Hlen. rewrite len_cons in Hlen.
      unfold Py.len in Hlen. rewrite length_app in Hlen.
      cbn [List.length] in Hlen. lia.
Qed.

End IstdSelection.

Lemma get_istd_area_first_of_ties_witness :
  get_istd_area tied_istd 3 1 5000 200 = Ok 5100.
Proof.
  apply (get_istd_area_first_of_ties 3 1 5000 200
           [] [peak 2 3 4 5 4900; peak 3 5 6 7 300] (peak 1 0 2 3 5100)).
  - vm_compute. intuition discriminate.
  - intros q [].
  - intros q [<- | [<- | []]] _; vm_compute; discriminate.
Defined.

(* ================================================================== *)
(** ** Further properties: sums over index ranges, means *)
(* ================================================================== *)

Lemma In_firstn {A} (x : A) (n : nat) (l : list A) :
  In x (firstn n l) -> In x l.
Proof.
  intros H. rewrite <- (firstn_skipn n l). apply in_or_app. now left.
Qed.

Lemma In_skipn {A} (x : A) (n : nat) (l : list A) :
  In x (skipn n l) -> In x l.
Proof.
  intros H. rewrite <- (firstn_skipn n l). apply in_or_app. now right.
Qed.

Lemma In_slice {A} (x : A) (l : list A) (lo hi : Z) :
  In x (Py.slice l lo hi) -> In x l.
Proof. unfold Py.slice. intros H. eapply In_skipn, In_firstn, H. Qed.

Lemma sum_cons (x : Q) (l : list Q) : Py.sum (x :: l) == x + Py.sum l.
Proof. unfold Py.sum at 1. cbn [fold_left]. rewrite sum_acc. ring. Qed.

Lemma sum_lower (lo : Q) (l : list Q) :
  (forall x, In x l -> lo <= x) -> inject_Z (Py.len l) * lo <= Py.sum l.
Proof.
  induction l as [|a l IH]; intros H.
  - rewrite len_nil. change (inject_Z 0) with 0.
    unfold Py.sum. cbn [fold_left]. lra.
  - assert (IH' := IH (fun x Hx => H x (or_intror Hx))).
    assert (Ha := H a (or_introl eq_refl)).
    rewrite len_cons, inject_Z_plus, sum_cons.
    change (inject_Z 1) with 1. lra.
Qed.

Lemma sum_upper (hi : Q) (l : list Q) :
  (forall x, In x l -> x <= hi) -> Py.sum l <= inject_Z (Py.len l) * hi.
Proof.
  induction l as [|a l IH]; intros H.
  - rewrite len_nil. change (inject_Z 0) with 0.
    unfold Py.sum. cbn [fold_left]. lra.
  - assert (IH' := IH (fun x Hx => H x (or_intror Hx))).
    assert (Ha := H a (or_introl eq_refl)).
    rewrite len_cons, inject_Z_plus, sum_cons.
    change (inject_Z 1) with 1. lra.
Qed.

Lemma len_positive {A} (l : list A) : l <> [] -> 0 < inject_Z (Py.len l).
Proof.
  destruct l as [|x l]; [congruence|]. intros _.
  rewrite len_cons. pose proof (len_nonneg l).
  unfold Qlt. cbn. lia.
Qed.

Lemma sum_areas_nonneg (peaks : list Peak) (lo hi : Z) :
  (forall p, In p peaks -> 0 <= PEAK_LS_AREA p) ->
  0 <= sum_areas peaks lo hi.
Proof.
  intros H. unfold sum_areas.
  pose proof (sum_lower 0 (map PEAK_LS_AREA (Py.slice peaks lo hi))) as Hlo.
  assert (inject_Z (Py.len (map PEAK_LS_AREA (Py.slice peaks lo hi))) * 0 == 0)
    as E by ring.
  rewrite E in Hlo. apply Hlo.
  intros x Hx. apply in_map_iff in Hx. destruct Hx as (p & <- & Hp).
  apply H. eapply In_slice; eassumption.
Qed.

(** X6: adjacent index ranges compose: for [0 <= a <= b <= c] the peaks
    of [a, c) are those of [a, b) followed by those of [b, c), and the
    sum over [a, c) is the sum over [a, b) carried on by adding the areas
    of [b, c) from left to right, the same additions in the same order. *)
Theorem sum_areas_adjacent_ranges (peaks : list Peak) (a b c : Z) :
  (0 <= a <= b)%Z -> (b <= c)%Z ->
  Py.slice peaks a c = Py.slice peaks a b ++ Py.slice peaks b c
  /\ sum_areas peaks a c
     = fold_left Qplus (map PEAK_LS_AREA (Py.slice peaks b c))
                 (sum_areas peaks a b).
Proof.
  intros Hab Hbc.
  pose proof (slice_split peaks a b c Hab Hbc) as Hsplit.
  split; [exact Hsplit|].
  unfold sum_areas, Py.sum.
  now rewrite Hsplit, map_app, fold_left_app.
Qed.

Lemma sum_areas_adjacent_ranges_witness :
  Py.slice fixture5 1 4 = Py.slice fixture5 1 2 ++ Py.slice fixture5 2 4
  /\ sum_areas fixture5 1 4
     = fold_left Qplus (map PEAK_LS_AREA (Py.slice fixture5 2 4))
                 (sum_areas fixture5 1 2).
Proof. apply (sum_areas_adjacent_ranges fixture5 1 2 4); lia. Defined.

(** X7: when no area is negative, a sum of areas is never negative and
    widening a range of non-negative bounds never lowers it. *)
Theorem sum_areas_monotone (peaks : list Peak) (a a' b b' : Z) :
  (forall p, In p peaks -> 0 <= PEAK_LS_AREA p) ->
  (0 <= a' <= a)%Z -> (0 <= b <= b')%Z ->
  0 <= sum_areas peaks a b /\ sum_areas peaks a b <= sum_areas peaks a' b'.
Proof.
  intros Hpos Ha Hb. split; [now apply sum_areas_nonneg|].
  destruct (Z.le_gt_cases a b) as [Hab | Hab].
  - rewrite (sum_areas_split peaks a' a b') by lia.
    rewrite (sum_areas_split peaks a b b') by lia.
    pose proof (sum_areas_nonneg peaks a' a Hpos).
    pose proof (sum_areas_nonneg peaks b b' Hpos). lra.
  - assert (E : sum_areas peaks a b = 0).
    { unfold sum_areas. rewrite slice_empty; [reflexivity|].
      pose proof (len_nonneg peaks).
      rewrite !slice_index_nonneg by lia. lia. }
    rewrite E. now apply sum_areas_nonneg.
Qed.

Lemma sum_areas_monotone_witness :
  0 <= sum_areas fixture5 2 3
  /\ sum_areas fixture5 2 3 <= sum_areas fixture5 1 4.
Proof.
  apply (sum_areas_monotone fixture5 2 1 3 4); try lia.
  intros p [<- | [<- | [<- | [<- | [<- | []]]]]]; vm_compute; discriminate.
Defined.

Section StoredIndices.

Context {A : Type}.

Lemma slice_up_to (l1 l2 : list A) (p : A) :
  Py.slice (l1 ++ p :: l2) 0 (Py.len l1 + 1) = l1 ++ [p].
Proof.
  unfold Py.slice.
  assert (Hn : Py.len (l1 ++ p :: l2) = (Py.len l1 + 1 + Py.len l2)%Z).
  { unfold Py.len. rewrite length_app. cbn [List.length]. lia. }
  pose proof (len_nonneg l1). pose proof (len_nonneg l2).
  rewrite !slice_index_inside by lia.
  cbn [Z.to_nat skipn].
  replace (Z.to_nat (Py.len l1 + 1 - 0)) with (List.length l1 + 1)%nat
    by (unfold Py.len; lia).
  now rewrite firstn_app_2.
Qed.

Lemma slice_between (l1 l2 l3 : list A) (p q : A) :
  Py.slice (l1 ++ p :: l2 ++ q :: l3)
           (Py.len l1 + 1) (Py.len l1 + Py.len l2 + 2)
  = l2 ++ [q].
Proof.
  unfold Py.slice.
  assert (Hn : Py.len (l1 ++ p :: l2 ++ q :: l3)
               = (Py.len l1 + Py.len l2 + 2 + Py.len l3)%Z).
  { unfold Py.len. rewrite length_app. cbn [List.length].
    rewrite length_app. cbn [List.length]. lia. }
  pose proof (len_nonneg l1). pose proof (len_nonneg l2).
  pose proof (len_nonneg l3).
  rewrite !slice_index_inside by lia.
  replace (Z.to_nat (Py.len l1 + 1)) with (S (List.length l1))
    by (unfold Py.len; lia).
  replace (Z.to_nat (Py.len l1 + Py.len l2 + 2 - (Py.len l1 + 1)))
    with (List.length l2 + 1)%nat by (unfold Py.len; lia).
  rewrite skipn_app, skipn_all2 by lia.
  replace (S (List.length l1) - List.length l1)%nat with 1%nat by lia.
  cbn [app skipn]. now rewrite firstn_app_2.
Qed.

End StoredIndices.

(** X8: with 1-based stored indices that follow the positions, a range
    that runs from the start of the list to the index of peak [p] counts
    [p] itself, and a range between the indices of [p] and a later peak
    [q] leaves [p] out and counts [q]. *)
Theorem sum_areas_between_stored_indices (l1 l2 l3 : list Peak) (p q : Peak) :
  PEAK_LS_IDX p = (Py.len l1 + 1)%Z ->
  PEAK_LS_IDX q = (Py.len l1 + Py.len l2 + 2)%Z ->
  sum_areas (l1 ++ p :: l2 ++ q :: l3) 0 (PEAK_LS_IDX p)
  == Py.sum (map PEAK_LS_AREA l1) + PEAK_LS_AREA p
  /\ sum_areas (l1 ++ p :: l2 ++ q :: l3) (PEAK_LS_IDX p) (PEAK_LS_IDX q)
     == Py.sum (map PEAK_LS_AREA l2) + PEAK_LS_AREA q.
Proof.
  intros -> ->. unfold sum_areas.
  rewrite slice_up_to, slice_between, !map_app. cbn [map].
  split; apply sum_snoc.
Qed.

Lemma sum_areas_between_stored_indices_witness :
  sum_areas fixture5 0 2 == Py.sum (map PEAK_LS_AREA [peak 1 0 1 2 10]) + 20
  /\ sum_areas fixture5 2 4
     == Py.sum (map PEAK_LS_AREA [peak 3 4 5 6 40]) + 80.
Proof.
  apply (sum_areas_between_stored_indices
           [peak 1 0 1 2 10] [peak 3 4 5 6 40] [peak 5 8 9 10 160]
           (peak 2 2 3 4 20) (peak 4 6 7 8 80)); reflexivity.
Defined.

(** X9: [mean] raises [ZeroDivisionError] on the empty list and on no
    other list: on a non-empty list the division [sum(list) / len(list)]
    is carried out and its value returned. *)
Theorem mean_spec (l : list Q) :
  (mean l = Raise ZeroDivisionError <-> l = [])
  /\ (l <> [] -> mean l = Ok (Py.sum l / inject_Z (Py.len l))).
Proof.
  split; [|apply mean_nonempty].
  split.
  - intros H. destruct l as [|x l]; [reflexivity|].
    rewrite mean_nonempty in H by discriminate. discriminate.
  - intros ->. reflexivity.
Qed.

Lemma mean_spec_witness :
  mean [] = Raise ZeroDivisionError
  /\ mean [1; 2; 6] = Ok (Py.sum [1; 2; 6] / inject_Z (Py.len [1; 2; 6])).
Proof.
  split.
  - now apply (proj2 (proj1 (mean_spec []))).
  - apply (proj2 (mean_spec [1; 2; 6])). discriminate.
Defined.

Lemma mean_in_range (l : list Q) (lo hi : Q) :
  l <> [] ->
  (forall x, In x l -> lo <= x /\ x <= hi) ->
  exists m, mean l = Ok m /\ lo <= m /\ m <= hi.
Proof.
  intros Hne H. rewrite (mean_nonempty l Hne).
  pose proof (len_positive l Hne) as Hn.
  eexists. split; [reflexivity|]. split.
  - apply Qle_shift_div_l; [assumption|].
    rewrite Qmult_comm. apply sum_lower. intros x Hx. now apply H.
  - apply Qle_shift_div_r; [assumption|].
    rewrite Qmult_comm. apply sum_upper. intros x Hx. now apply H.
Qed.

(** X10: the mean of a non-empty list without a negative item is not
    negative. *)
Theorem mean_nonnegative (l : list Q) :
  l <> [] ->
  (forall x, In x l -> 0 <= x) ->
  exists m, mean l = Ok m /\ 0 <= m.
Proof.
  intros Hne H.
  exists (Py.sum l / inject_Z (Py.len l)).
  split; [now apply mean_nonempty|].
  pose proof (len_positive l Hne) as Hn.
  pose proof (sum_lower 0 l H) as Hlo.
  apply Qle_shift_div_l; [assumption | lra].
Qed.

Lemma mean_nonnegative_witness :
  exists m, mean [1; 2; 6] = Ok m /\ 0 <= m.
Proof.
  apply (mean_nonnegative [1; 2; 6]); [discriminate|].
  intros x [<- | [<- | [<- | []]]]; vm_compute; discriminate.
Defined.

(* ================================================================== *)
(** ** Further properties: the blank average constructor *)
(* ================================================================== *)

Section Comprehension.

Context {A B : Type} (f : A -> result B).

Lemma comprehension_Forall2 (l : list A) (ys : list B) :
  Forall2 (fun x y => f x = Ok y) l ys -> Py.comprehension f l = Ok ys.
Proof.
  induction 1 as [|x y l ys Hx _ IH]; [reflexivity|].
  cbn [Py.comprehension]. now rewrite Hx, IH.
Qed.

Lemma comprehension_Ok (l : list A) (ys : list B) :
  Py.comprehension f l = Ok ys -> Forall2 (fun x y => f x = Ok y) l ys.
Proof.
  revert ys. induction l as [|x l IH]; intros ys; cbn [Py.comprehension].
  - intros [= <-]. constructor.
  - destruct (f x) as [y|e] eqn:Hx; [|discriminate]. cbn [Py.bind].
    destruct (Py.comprehension f l) as [ys'|e]; [|discriminate].
    cbn [Py.bind]. intros [= <-]. constructor; auto.
Qed.

(** When every call returns or raises [e], and some call raises, the
    comprehension raises [e]. *)
Lemma comprehension_raises (e : exception) (l : list A) :
  Forall (fun x => (exists y, f x = Ok y) \/ f x = Raise e) l ->
  Exists (fun x => f x = Raise e) l ->
  Py.comprehension f l = Raise e.
Proof.
  induction 1 as [|x l Hx Hl IH]; intros Hex;
    inversion Hex as [? ? Hbad | ? ? Hrest]; subst; cbn [Py.comprehension].
  - now rewrite Hbad.
  - destruct Hx as [(y & ->) | ->]; [|reflexivity].
    cbn [Py.bind]. now rewrite (IH Hrest).
Qed.

End Comprehension.

Lemma Forall2_length_eq {A B} (R : A -> B -> Prop) (l : list A) (l' : list B) :
  Forall2 R l l' -> List.length l = List.length l'.
Proof. induction 1; cbn [List.length]; congruence. Qed.

Ltac frame_fields :=
  cbn [areas_c6_c10 areas_c10_c16 areas_c16_c34 areas_c34_c40 areas_c10_c40
       self_area_c6_c10 self_area_c10_c16 self_area_c16_c34
       self_area_c34_c40 self_area_c10_c40 init_frame0].

Section BlankAverageLoop.

Variable opx : opx_constants.

Lemma init_body_c6 (f : init_frame) (blank : list Peak) :
  init_body opx true f blank
  = match run_sum_c6_c10 opx blank with
    | Ok s => Ok (frame_c6 f [s])
    | Raise e => Raise e
    end.
Proof.
  unfold init_body, run_sum_c6_c10.
  destruct (get_fraction_end_index blank (C6_C10_END opx)); [|reflexivity].
  cbn [Py.bind]. rewrite mean_nonempty by apply snoc_not_nil. reflexivity.
Qed.

Lemma init_body_full_sums (f : init_frame) (blank : list Peak) :
  init_body opx false f blank
  = match run_sums_full opx blank with
    | Ok s => Ok (frame_full f [s])
    | Raise e => Raise e
    end.
Proof.
  unfold init_body, run_sums_full.
  destruct (get_fraction_start_index blank _); [|reflexivity]. cbn [Py.bind].
  destruct (get_fraction_end_index blank (C10_C16_END opx)); [|reflexivity].
  cbn [Py.bind].
  destruct (get_fraction_end_index blank (C16_C34_END opx)); [|reflexivity].
  cbn [Py.bind].
  destruct (get_fraction_end_index blank (C34_C40_END opx)); [|reflexivity].
  cbn [Py.bind]. rewrite !mean_nonempty by apply snoc_not_nil. reflexivity.
Qed.

Lemma frame_c6_cons (f : init_frame) (s : Q) (sums : list Q) :
  frame_c6 (frame_c6 f [s]) sums = frame_c6 f (s :: sums).
Proof.
  destruct sums as [|x r]; [reflexivity|].
  unfold frame_c6. frame_fields. now rewrite <- !app_assoc.
Qed.

Lemma frame_full_cons (f : init_frame) (s : run_sums) (sums : list run_sums) :
  frame_full (frame_full f [s]) sums = frame_full f (s :: sums).
Proof.
  destruct sums as [|x r]; [reflexivity|].
  unfold frame_full. frame_fields. cbn [map]. now rewrite <- !app_assoc.
Qed.

(** The loop in C6-C10 mode appends one sum per run, and raises what the
    first failing run raises. *)
Lemma for_each_c6 (blank_data : list (list Peak)) : forall f,
  Py.for_each (init_body opx true) blank_data f
  = match Py.comprehension (run_sum_c6_c10 opx) blank_data with
    | Ok sums => Ok (frame_c6 f sums)
    | Raise e => Raise e
    end.
Proof.
  induction blank_data as [|blank rest IH]; intros f; [reflexivity|].
  cbn [Py.for_each Py.comprehension]. rewrite init_body_c6.
  destruct (run_sum_c6_c10 opx blank) as [s|e]; [|reflexivity].
  cbn [Py.bind]. rewrite IH.
  destruct (Py.comprehension _ rest); [|reflexivity].
  cbn [Py.bind]. now rewrite frame_c6_cons.
Qed.

Lemma for_each_full_sums (blank_data : list (list Peak)) : forall f,
  Py.for_each (init_body opx false) blank_data f
  = match Py.comprehension (run_sums_full opx) blank_data with
    | Ok sums => Ok (frame_full f sums)
    | Raise e => Raise e
    end.
Proof.
  induction blank_data as [|blank rest IH]; intros f; [reflexivity|].
  cbn [Py.for_each Py.comprehension]. rewrite init_body_full_sums.
  destruct (run_sums_full opx blank) as [s|e]; [|reflexivity].
  cbn [Py.bind]. rewrite IH.
  destruct (Py.comprehension _ rest); [|reflexivity].
  cbn [Py.bind]. now rewrite frame_full_cons.
Qed.

End BlankAverageLoop.

Section Outcomes.

Context {A B : Type} (f : A -> result B) (P : A -> Prop) (e : exception).

(** A comprehension over calls that return where [P] holds and raise [e]
    where it does not. *)
Lemma comprehension_cases (l : list A) :
  (forall x, (P x /\ exists y, f x = Ok y) \/ (~ P x /\ f x = Raise e)) ->
  (Forall P l
   /\ exists ys, Py.comprehension f l = Ok ys
                 /\ List.length ys = List.length l)
  \/ (Exists (fun x => ~ P x) l /\ Py.comprehension f l = Raise e).
Proof.
  intros Hf. induction l as [|x l IH].
  - left. split; [constructor|]. now exists [].
  - cbn [Py.comprehension].
    destruct (Hf x) as [(Hx & y & ->) | (Hx & ->)].
    + cbn [Py.bind].
      destruct IH as [(Hall & ys & -> & Hlen) | (Hex & ->)].
      * left. split; [now constructor|]. exists (y :: ys).
        cbn [Py.bind List.length]. now rewrite Hlen.
      * right. split; [now apply Exists_cons_tl | reflexivity].
    + right. split; [now apply Exists_cons_hd | reflexivity].
Qed.

Lemma Forall_not_Exists (l : list A) :
  Forall P l -> Exists (fun x => ~ P x) l -> False.
Proof.
  induction 1 as [|x l Hx _ IH]; intros Hex;
    inversion Hex; subst; auto.
Qed.

End Outcomes.

Lemma get_fraction_end_index_cases (peaks : list Peak) (rt_end : Q) :
  (ends_at_or_after peaks rt_end
   /\ exists i, get_fraction_end_index peaks rt_end = Ok i)
  \/ (~ ends_at_or_after peaks rt_end
      /\ get_fraction_end_index peaks rt_end = Raise ValueError).
Proof.
  destruct (get_fraction_end_index peaks rt_end) as [i|e] eqn:E.
  - left. split; [|now exists i].
    apply get_fraction_end_index_Ok_In in E.
    destruct E as (q & Hq & _ & Hge). now exists q.
  - right. unfold get_fraction_end_index in E.
    destruct (filter _ peaks) as [|x l] eqn:Hf; [|discriminate].
    split; [|now injection E as <-].
    intros (p & Hp & Hge).
    assert (Hin : In p (filter (fun x => Qle_bool 0 (PEAK_LS_END x - rt_end))
                               peaks)).
    { apply filter_In. split; [assumption|]. apply Qle_bool_iff. lra. }
    rewrite Hf in Hin. exact Hin.
Qed.

Lemma get_fraction_start_index_total (peaks : list Peak) (rt_start : Q) :
  exists i, get_fraction_start_index peaks rt_start = Ok i.
Proof.
  unfold get_fraction_start_index.
  destruct (map _ (filter _ peaks)); cbn; eauto.
Qed.

Lemma get_istd_area_cases (rt tol target atol : Q) (peaks : list Peak) :
  (has_istd_peak rt tol target atol peaks
   /\ exists a, get_istd_area peaks rt tol target atol = Ok a)
  \/ (~ has_istd_peak rt tol target atol peaks
      /\ get_istd_area peaks rt tol target atol
         = Raise (IstdError "No acceptable internal standard peaks found.")).
Proof.
  unfold get_istd_area, has_istd_peak.
  pose proof (candidates_In rt tol target atol peaks) as Hcands.
  destruct (istd_peak_list peaks rt tol target atol) as [|c l] eqn:E.
  - right. split; [|reflexivity].
    intros (p & Hp & Hw).
    apply (proj2 (Hcands (PEAK_LS_RT p, PEAK_LS_AREA p))). now exists p.
  - left. split.
    + destruct (proj1 (Hcands c) (or_introl eq_refl)) as (p & Hp & Hw & _).
      now exists p.
    + destruct l as [|c' l'].
      * exists (snd c). reflexivity.
      * destruct (istd_isolate_many rt (c :: c' :: l')) as (m & _ & _ & ->).
        { rewrite !len_cons. pose proof (len_nonneg l'). lia. }
        eexists. reflexivity.
Qed.

(** X4: a located ISTD area is never taken from outside the windows: it
    is the area of a peak of the list that passes both window tests and
    is as close to [istd_rt] as every other peak that passes them; and
    the only error the lookup raises is the "No acceptable" [IstdError],
    raised when no peak passes. *)
Theorem get_istd_area_from_windowed_peak
    (istd_rt istd_rt_tolerance istd_area_target istd_area_tolerance : Q)
    (peaks : list Peak) :
  (forall a,
      get_istd_area peaks istd_rt istd_rt_tolerance istd_area_target
                    istd_area_tolerance = Ok a ->
      exists p, In p peaks
        /\ in_both_windows istd_rt istd_rt_tolerance istd_area_target
                           istd_area_tolerance p
        /\ PEAK_LS_AREA p = a
        /\ forall q, In q peaks ->
             in_both_windows istd_rt istd_rt_tolerance istd_area_target
                             istd_area_tolerance q ->
             Qabs (PEAK_LS_RT p - istd_rt) <= Qabs (PEAK_LS_RT q - istd_rt))
  /\ (forall e,
      get_istd_area peaks istd_rt istd_rt_tolerance istd_area_target
                    istd_area_tolerance = Raise e ->
      e = IstdError "No acceptable internal standard peaks found."
      /\ forall q, In q peaks ->
           ~ in_both_windows istd_rt istd_rt_tolerance istd_area_target
                             istd_area_tolerance q).
Proof.
  split.
  - intros a H. now apply get_istd_area_Ok_In.
  - intros e H.
    destruct (get_istd_area_cases istd_rt istd_rt_tolerance istd_area_target
                istd_area_tolerance peaks) as [(_ & a & Ha) | (Hno & He)].
    + rewrite Ha in H. discriminate.
    + rewrite He in H. injection H as <-. split; [reflexivity|].
      intros q Hq Hw. apply Hno. now exists q.
Qed.

Lemma get_istd_area_from_windowed_peak_witness :
  (exists p, In p sample3 /\ in_both_windows 3 0.5 5000 500 p
     /\ PEAK_LS_AREA p = 5000
     /\ forall q, In q sample3 -> in_both_windows 3 0.5 5000 500 q ->
          Qabs (PEAK_LS_RT p - 3) <= Qabs (PEAK_LS_RT q - 3))
  /\ (IstdError "No acceptable internal standard peaks found."
      = IstdError "No acceptable internal standard peaks found."
      /\ forall q, In q sample3 -> ~ in_both_windows 9 0.5 5000 500 q).
Proof.
  split.
  - apply (proj1 (get_istd_area_from_windowed_peak 3 0.5 5000 500 sample3)
             5000).
    reflexivity.
  - apply (proj2 (get_istd_area_from_windowed_peak 9 0.5 5000 500 sample3)
             (IstdError "No acceptable internal standard peaks found.")).
    reflexivity.
Defined.

Section BlankAverageOutcome.

Variable opx : opx_constants.

Lemma run_sum_c6_c10_cases (blank : list Peak) :
  (boundaries_resolve opx true blank
   /\ exists s, run_sum_c6_c10 opx blank = Ok s)
  \/ (~ boundaries_resolve opx true blank
      /\ run_sum_c6_c10 opx blank = Raise ValueError).
Proof.
  unfold run_sum_c6_c10, boundaries_resolve.
  destruct (get_fraction_end_index_cases blank (C6_C10_END opx))
    as [(H & i & ->) | (H & ->)]; [left | right]; split; cbn; eauto.
Qed.

Lemma run_sums_full_cases (blank : list Peak) :
  (boundaries_resolve opx false blank
   /\ exists s, run_sums_full opx blank = Ok s)
  \/ (~ boundaries_resolve opx false blank
      /\ run_sums_full opx blank = Raise ValueError).
Proof.
  unfold run_sums_full, boundaries_resolve.
  destruct (get_fraction_start_index_total blank (C10_C16_START opx))
    as (i10 & ->). cbn [Py.bind].
  destruct (get_fraction_end_index_cases blank (C10_C16_END opx))
    as [(H16 & i16 & ->) | (H16 & ->)]; [|right; split; [tauto | reflexivity]].
  cbn [Py.bind].
  destruct (get_fraction_end_index_cases blank (C16_C34_END opx))
    as [(H34 & i34 & ->) | (H34 & ->)]; [|right; split; [tauto | reflexivity]].
  cbn [Py.bind].
  destruct (get_fraction_end_index_cases blank (C34_C40_END opx))
    as [(H40 & i40 & ->) | (H40 & ->)]; [|right; split; [tauto | reflexivity]].
  left. split; [tauto|]. cbn. eauto.
Qed.

(** The loop of the constructor: it ends normally when the boundaries of
    every run resolve, and then (for a non-empty batch) has set the
    attributes of the mode; otherwise it raises [ValueError]. *)
Lemma loop_cases (analysis_c6_c10 : bool) (blank_data : list (list Peak)) :
  (Forall (boundaries_resolve opx analysis_c6_c10) blank_data
   /\ exists f,
       Py.for_each (init_body opx analysis_c6_c10) blank_data init_frame0 = Ok f
       /\ (blank_data <> [] ->
           forall istd area,
             attributes_of_mode analysis_c6_c10
               (BlankAverage.mk (self_area_c6_c10 f) (self_area_c10_c16 f)
                  (self_area_c16_c34 f) (self_area_c34_c40 f)
                  (self_area_c10_c40 f) istd area)))
  \/ (Exists (fun blank => ~ boundaries_resolve opx analysis_c6_c10 blank)
             blank_data
      /\ Py.for_each (init_body opx analysis_c6_c10) blank_data init_frame0
         = Raise ValueError).
Proof.
  destruct analysis_c6_c10.
  - rewrite for_each_c6.
    destruct (comprehension_cases _ _ ValueError blank_data
                (run_sum_c6_c10_cases))
      as [(Hall & sums & -> & Hlen) | (Hex & ->)]; [left | now right].
    split; [assumption|]. eexists. split; [reflexivity|].
    intros Hne istd area. destruct sums as [|s r].
    + destruct blank_data; [congruence | discriminate].
    + cbn. repeat split; congruence.
  - rewrite for_each_full_sums.
    destruct (comprehension_cases _ _ ValueError blank_data
                (run_sums_full_cases))
      as [(Hall & sums & -> & Hlen) | (Hex & ->)]; [left | now right].
    split; [assumption|]. eexists. split; [reflexivity|].
    intros Hne istd area. destruct sums as [|s r].
    + destruct blank_data; [congruence | discriminate].
    + cbn. repeat split; congruence.
Qed.

Variables istd_rt istd_rt_tolerance istd_area_target istd_area_tolerance : Q.

Local Abbreviation has_istd :=
  (has_istd_peak istd_rt istd_rt_tolerance istd_area_target
                 istd_area_tolerance).

Lemma istds_cases (blank_data : list (list Peak)) :
  (Forall has_istd blank_data
   /\ exists istds,
       Py.comprehension
         (fun x => get_istd_area x istd_rt istd_rt_tolerance
                                 istd_area_target istd_area_tolerance)
         blank_data = Ok istds
       /\ List.length istds = List.length blank_data)
  \/ (Exists (fun blank => ~ has_istd blank) blank_data
      /\ Py.comprehension
           (fun x => get_istd_area x istd_rt istd_rt_tolerance
                                   istd_area_target istd_area_tolerance)
           blank_data
         = Raise (IstdError "No acceptable internal standard peaks found.")).
Proof.
  apply comprehension_cases. intros x. apply get_istd_area_cases.
Qed.

(** X11: the constructor returns a [BlankAverage] exactly when the batch
    is not empty, the boundaries of the mode resolve in every run and
    every run has a peak in both ISTD windows. *)
Theorem BlankAverage_init_succeeds_iff (analysis_c6_c10 : bool)
    (blank_data : list (list Peak)) :
  (exists b, BlankAverage__init__ opx blank_data analysis_c6_c10 istd_rt
               istd_rt_tolerance istd_area_target istd_area_tolerance = Ok b)
  <-> blank_data <> []
      /\ Forall (boundaries_resolve opx analysis_c6_c10) blank_data
      /\ Forall has_istd blank_data.
Proof.
  unfold BlankAverage__init__.
  destruct (loop_cases analysis_c6_c10 blank_data)
    as [(Hres & f & -> & _) | (Hbad & ->)]; cbn [Py.bind].
  - destruct (istds_cases blank_data)
      as [(Histd & istds & -> & Hlen) | (Hno & ->)]; cbn [Py.bind].
    + destruct istds as [|a r].
      * destruct blank_data; [|discriminate]. cbn.
        split; [intros (b & Hb); discriminate | intros (H & _); congruence].
      * rewrite mean_nonempty by discriminate. cbn [Py.bind].
        split; [intros _ | eauto].
        repeat split; try assumption.
        destruct blank_data; [discriminate | discriminate].
    + split; [intros (b & Hb); discriminate|].
      intros (_ & _ & Hall). exfalso. eapply Forall_not_Exists; eassumption.
  - split; [intros (b & Hb); discriminate|].
    intros (_ & Hall & _). exfalso. eapply Forall_not_Exists; eassumption.
Qed.

(** X12: a batch with a run in which some end boundary of the mode has
    no peak ending at or after it makes the constructor raise
    [ValueError], whatever the other runs hold. *)
Theorem BlankAverage_init_unresolved_boundary (analysis_c6_c10 : bool)
    (blank_data : list (list Peak)) :
  Exists (fun blank => ~ boundaries_resolve opx analysis_c6_c10 blank)
         blank_data ->
  BlankAverage__init__ opx blank_data analysis_c6_c10 istd_rt
    istd_rt_tolerance istd_area_target istd_area_tolerance
  = Raise ValueError.
Proof.
  intros Hbad. unfold BlankAverage__init__.
  destruct (loop_cases analysis_c6_c10 blank_data)
    as [(Hres & _) | (_ & ->)]; [|reflexivity].
  exfalso. eapply Forall_not_Exists; eassumption.
Qed.

(** X13: when the boundaries resolve in every run but some run has no
    peak in both ISTD windows, the constructor raises [IstdError]. *)
Theorem BlankAverage_init_missing_istd (analysis_c6_c10 : bool)
    (blank_data : list (list Peak)) :
  Forall (boundaries_resolve opx analysis_c6_c10) blank_data ->
  Exists (fun blank => ~ has_istd blank) blank_data ->
  BlankAverage__init__ opx blank_data analysis_c6_c10 istd_rt
    istd_rt_tolerance istd_area_target istd_area_tolerance
  = Raise (IstdError "No acceptable internal standard peaks found.").
Proof.
  intros Hres Hno. unfold BlankAverage__init__.
  destruct (loop_cases analysis_c6_c10 blank_data)
    as [(_ & f & -> & _) | (Hbad & _)];
    [|exfalso; eapply Forall_not_Exists; eassumption].
  cbn [Py.bind].
  destruct (istds_cases blank_data) as [(Histd & _) | (_ & ->)];
    [|reflexivity].
  exfalso. eapply Forall_not_Exists; eassumption.
Qed.

(** X14: an empty batch raises [ZeroDivisionError]; a constructed
    [BlankAverage] has [area] unset and exactly the fraction attributes
    of its mode. *)
Theorem BlankAverage_init_attributes (analysis_c6_c10 : bool)
    (blank_data : list (list Peak)) :
  BlankAverage__init__ opx [] analysis_c6_c10 istd_rt istd_rt_tolerance
    istd_area_target istd_area_tolerance = Raise ZeroDivisionError
  /\ forall b,
      BlankAverage__init__ opx blank_data analysis_c6_c10 istd_rt
        istd_rt_tolerance istd_area_target istd_area_tolerance = Ok b ->
      BlankAverage.area b = None /\ attributes_of_mode analysis_c6_c10 b.
Proof.
  split; [reflexivity|].
  intros b. unfold BlankAverage__init__.
  destruct (loop_cases analysis_c6_c10 blank_data)
    as [(_ & f & -> & Hattr) | (_ & ->)]; [|discriminate].
  cbn [Py.bind].
  destruct (istds_cases blank_data)
    as [(_ & istds & -> & Hlen) | (_ & ->)]; [|discriminate].
  cbn [Py.bind].
  destruct (mean istds) as [m|e] eqn:Hm; [|discriminate].
  cbn [Py.bind]. intros [= <-]. split; [reflexivity|].
  apply Hattr. intros ->. destruct istds; [|discriminate].
  discriminate.
Qed.

End BlankAverageOutcome.

Lemma Forall2_In_right {A B} (R : A -> B -> Prop) (l : list A) (l' : list B) :
  Forall2 R l l' -> forall y, In y l' -> exists x, In x l /\ R x y.
Proof.
  induction 1 as [|x y l l' Hxy _ IH]; intros z Hz; [destruct Hz|].
  destruct Hz as [<- | Hz].
  - exists x. split; [now left | assumption].
  - destruct (IH z Hz) as (x' & Hx' & HR). exists x'. split; [now right|].
    assumption.
Qed.

Lemma Forall2_weaken {A B} (R R' : A -> B -> Prop) (l : list A) (l' : list B) :
  (forall x y, R x y -> R' x y) -> Forall2 R l l' -> Forall2 R' l l'.
Proof. intros H. induction 1; constructor; auto. Qed.

Section BlankAverageValue.

Variable opx : opx_constants.
Variables istd_rt istd_rt_tolerance istd_area_target istd_area_tolerance : Q.

(** What a successful construction went through. *)
Lemma BlankAverage_init_Ok_inv (analysis_c6_c10 : bool)
    (blank_data : list (list Peak)) (b : BlankAverage.t) :
  BlankAverage__init__ opx blank_data analysis_c6_c10 istd_rt
    istd_rt_tolerance istd_area_target istd_area_tolerance = Ok b ->
  exists f istds m,
    Py.for_each (init_body opx analysis_c6_c10) blank_data init_frame0 = Ok f
    /\ Py.comprehension
         (fun x => get_istd_area x istd_rt istd_rt_tolerance
                                 istd_area_target istd_area_tolerance)
         blank_data = Ok istds
    /\ mean istds = Ok m
    /\ b = BlankAverage.mk (self_area_c6_c10 f) (self_area_c10_c16 f)
                           (self_area_c16_c34 f) (self_area_c34_c40 f)
                           (self_area_c10_c40 f) m None.
Proof.
  unfold BlankAverage__init__.
  destruct (Py.for_each _ blank_data init_frame0) as [f|e]; [|discriminate].
  cbn [Py.bind].
  destruct (Py.comprehension _ blank_data) as [istds|e]; [|discriminate].
  cbn [Py.bind].
  destruct (mean istds) as [m|e] eqn:Hm; [|discriminate].
  cbn [Py.bind]. intros [= <-]. exists f, istds, m.
  repeat split; assumption.
Qed.

(** X15: in C6-C10 mode, for a non-empty batch whose runs resolve the
    C6-C10 end boundary to indices with sums [sums] and whose ISTD areas
    are [istds], the constructor sets [area_c6_c10] to the mean of
    [sums] and [istd] to the mean of [istds], and sets nothing else. *)
Theorem BlankAverage_init_c6_c10_value (blank_data : list (list Peak))
    (sums istds : list Q) :
  blank_data <> [] ->
  Forall2 (fun blank s =>
             exists i_c10,
               get_fraction_end_index blank (C6_C10_END opx) = Ok i_c10
               /\ s = sum_areas blank 0 i_c10)
          blank_data sums ->
  Forall2 (fun blank a =>
             get_istd_area blank istd_rt istd_rt_tolerance istd_area_target
                           istd_area_tolerance = Ok a)
          blank_data istds ->
  exists m_c6_c10 m_istd,
    mean sums = Ok m_c6_c10 /\ mean istds = Ok m_istd
    /\ BlankAverage__init__ opx blank_data true istd_rt istd_rt_tolerance
         istd_area_target istd_area_tolerance
       = Ok (BlankAverage.mk (Some m_c6_c10) None None None None m_istd None).
Proof.
  intros Hne Hsums Histds.
  assert (Hs : sums <> []).
  { apply Forall2_length_eq in Hsums.
    destruct sums; [destruct blank_data; [congruence|discriminate]|discriminate]. }
  assert (Hi : istds <> []).
  { apply Forall2_length_eq in Histds.
    destruct istds; [destruct blank_data; [congruence|discriminate]|discriminate]. }
  exists (Py.sum sums / inject_Z (Py.len sums)),
         (Py.sum istds / inject_Z (Py.len istds)).
  split; [now apply mean_nonempty|]. split; [now apply mean_nonempty|].
  unfold BlankAverage__init__. rewrite for_each_c6.
  rewrite (comprehension_Forall2 (run_sum_c6_c10 opx) blank_data sums).
  2:{ eapply Forall2_weaken; [|exact Hsums].
      intros blank s (i & Hi' & ->). unfold run_sum_c6_c10. now rewrite Hi'. }
  cbn [Py.bind]. rewrite (comprehension_Forall2 _ _ _ Histds).
  cbn [Py.bind]. rewrite (mean_nonempty istds Hi). cbn [Py.bind].
  destruct sums; [congruence|]. reflexivity.
Qed.

(** X16: in full-TRH mode, for a non-empty batch whose runs resolve to
    the index quadruples behind [sums] and whose ISTD areas are [istds],
    the constructor sets each of the four fraction attributes to the
    mean of its per-run sums and [istd] to the mean of [istds], and
    leaves [area_c6_c10] and [area] unset. *)
Theorem BlankAverage_init_full_value (blank_data : list (list Peak))
    (sums : list run_sums) (istds : list Q) :
  blank_data <> [] ->
  Forall2 (fun blank s =>
             exists i_c10 i_c16 i_c34 i_c40,
               get_fraction_start_index blank (C10_C16_START opx) = Ok i_c10
               /\ get_fraction_end_index blank (C10_C16_END opx) = Ok i_c16
               /\ get_fraction_end_index blank (C16_C34_END opx) = Ok i_c34
               /\ get_fraction_end_index blank (C34_C40_END opx) = Ok i_c40
               /\ s = mkSums (sum_areas blank i_c10 i_c16)
                             (sum_areas blank i_c16 i_c34)
                             (sum_areas blank i_c34 i_c40)
                             (sum_areas blank i_c10 i_c40))
          blank_data sums ->
  Forall2 (fun blank a =>
             get_istd_area blank istd_rt istd_rt_tolerance istd_area_target
                           istd_area_tolerance = Ok a)
          blank_data istds ->
  exists m16 m34 m40 m1040 m_istd,
    mean (map run_c10_c16 sums) = Ok m16
    /\ mean (map run_c16_c34 sums) = Ok m34
    /\ mean (map run_c34_c40 sums) = Ok m40
    /\ mean (map run_c10_c40 sums) = Ok m1040
    /\ mean istds = Ok m_istd
    /\ BlankAverage__init__ opx blank_data false istd_rt istd_rt_tolerance
         istd_area_target istd_area_tolerance
       = Ok (BlankAverage.mk None (Some m16) (Some m34) (Some m40)
                             (Some m1040) m_istd None).
Proof.
  intros Hne Hsums Histds.
  assert (Hs : sums <> []).
  { apply Forall2_length_eq in Hsums.
    destruct sums; [destruct blank_data; [congruence|discriminate]|discriminate]. }
  assert (Hi : istds <> []).
  { apply Forall2_length_eq in Histds.
    destruct istds; [destruct blank_data; [congruence|discriminate]|discriminate]. }
  assert (Hmap : forall g : run_sums -> Q, map g sums <> [])
    by (intros g; destruct sums; [congruence | discriminate]).
  do 5 eexists.
  do 5 (split; [apply mean_nonempty; auto|]).
  unfold BlankAverage__init__. rewrite for_each_full_sums.
  rewrite (comprehension_Forall2 (run_sums_full opx) blank_data sums).
  2:{ eapply Forall2_weaken; [|exact Hsums].
      intros blank s (i10 & i16 & i34 & i40 & H10 & H16 & H34 & H40 & ->).
      unfold run_sums_full. now rewrite H10, H16, H34, H40. }
  cbn [Py.bind]. rewrite (comprehension_Forall2 _ _ _ Histds).
  cbn [Py.bind]. rewrite (mean_nonempty istds Hi). cbn [Py.bind].
  destruct sums; [congruence|]. reflexivity.
Qed.

(** X17: the [istd] of a constructed [BlankAverage] is the mean of one
    area per run, each the area of a peak of that run that passes both
    ISTD window tests: no default stands in for a run. *)
Theorem BlankAverage_istd_from_windowed_peaks (analysis_c6_c10 : bool)
    (blank_data : list (list Peak)) (b : BlankAverage.t) :
  BlankAverage__init__ opx blank_data analysis_c6_c10 istd_rt
    istd_rt_tolerance istd_area_target istd_area_tolerance = Ok b ->
  exists istds,
    Forall2 (fun blank a =>
               exists p, In p blank
                 /\ in_both_windows istd_rt istd_rt_tolerance
                                    istd_area_target istd_area_tolerance p
                 /\ PEAK_LS_AREA p = a)
            blank_data istds
    /\ mean istds = Ok (BlankAverage.istd b).
Proof.
  intros H. apply BlankAverage_init_Ok_inv in H.
  destruct H as (f & istds & m & _ & Hc & Hm & ->).
  cbn [BlankAverage.istd]. exists istds. split; [|exact Hm].
  apply comprehension_Ok in Hc.
  eapply Forall2_weaken; [|exact Hc].
  intros blank a Ha. apply get_istd_area_Ok_In in Ha.
  destruct Ha as (p & Hp & Hw & Hpa & _). now exists p.
Qed.

End BlankAverageValue.

Lemma blank_separated_resolves : boundaries_resolve opx_demo false blank_separated.
Proof.
  repeat split.
  - exists (peak 2 10 12 16 200). split; [simpl; tauto | vm_compute; discriminate].
  - exists (peak 3 16 25 32 300). split; [simpl; tauto | vm_compute; discriminate].
  - exists (peak 4 32 40 46 400). split; [simpl; tauto | vm_compute; discriminate].
Defined.

Lemma blank_separated_has_istd : has_istd_peak 12 1 200 10 blank_separated.
Proof.
  exists (peak 2 10 12 16 200).
  split; [simpl; tauto | vm_compute; intuition discriminate].
Defined.

Lemma BlankAverage_init_succeeds_iff_witness :
  exists b, BlankAverage__init__ opx_demo [blank_separated] false 12 1 200 10
            = Ok b.
Proof.
  apply (proj2 (BlankAverage_init_succeeds_iff opx_demo 12 1 200 10 false
                  [blank_separated])).
  split; [discriminate|]. split.
  - apply Forall_cons; [exact blank_separated_resolves | apply Forall_nil].
  - apply Forall_cons; [exact blank_separated_has_istd | apply Forall_nil].
Defined.

Lemma BlankAverage_init_unresolved_boundary_witness :
  BlankAverage__init__ opx_demo [blank_separated; sample3] false 12 1 200 10
  = Raise ValueError.
Proof.
  apply (BlankAverage_init_unresolved_boundary opx_demo 12 1 200 10 false
           [blank_separated; sample3]).
  apply Exists_cons_tl, Exists_cons_hd.
  intros ((p & Hp & Hge) & _).
  destruct Hp as [<- | [<- | [<- | []]]]; vm_compute in Hge; now apply Hge.
Defined.

Lemma BlankAverage_init_missing_istd_witness :
  BlankAverage__init__ opx_demo [blank_separated] false 12 1 999 1
  = Raise (IstdError "No acceptable internal standard peaks found.").
Proof.
  apply (BlankAverage_init_missing_istd opx_demo 12 1 999 1 false
           [blank_separated]).
  - apply Forall_cons; [exact blank_separated_resolves | apply Forall_nil].
  - apply Exists_cons_hd. intros (p & Hp & _ & Hlo & _).
    destruct Hp as [<- | [<- | [<- | [<- | [<- | []]]]]];
      vm_compute in Hlo; now apply Hlo.
Defined.

Lemma BlankAverage_init_attributes_witness :
  BlankAverage.area
    (BlankAverage.mk None (Some 200) (Some 300) (Some 400) (Some 900) 200 None)
  = None
  /\ attributes_of_mode false
       (BlankAverage.mk None (Some 200) (Some 300) (Some 400) (Some 900) 200
                        None).
Proof.
  apply (proj2 (BlankAverage_init_attributes opx_demo 12 1 200 10 false
                  [blank_separated])).
  reflexivity.
Defined.

Lemma BlankAverage_init_c6_c10_value_witness :
  exists m_c6_c10 m_istd,
    mean [sum_areas blank_separated 0 2] = Ok m_c6_c10
    /\ mean [200] = Ok m_istd
    /\ BlankAverage__init__ opx_demo [blank_separated] true 12 1 200 10
       = Ok (BlankAverage.mk (Some m_c6_c10) None None None None m_istd None).
Proof.
  apply (BlankAverage_init_c6_c10_value opx_demo 12 1 200 10
           [blank_separated] [sum_areas blank_separated 0 2] [200]).
  - discriminate.
  - apply Forall2_cons; [|apply Forall2_nil].
    exists 2%Z. split; reflexivity.
  - apply Forall2_cons; [reflexivity | apply Forall2_nil].
Defined.

Lemma BlankAverage_init_full_value_witness :
  exists m16 m34 m40 m1040 m_istd,
    mean (map run_c10_c16 [mkSums 200 300 400 900]) = Ok m16
    /\ mean (map run_c16_c34 [mkSums 200 300 400 900]) = Ok m34
    /\ mean (map run_c34_c40 [mkSums 200 300 400 900]) = Ok m40
    /\ mean (map run_c10_c40 [mkSums 200 300 400 900]) = Ok m1040
    /\ mean [200] = Ok m_istd
    /\ BlankAverage__init__ opx_demo [blank_separated] false 12 1 200 10
       = Ok (BlankAverage.mk None (Some m16) (Some m34) (Some m40)
                             (Some m1040) m_istd None).
Proof.
  apply (BlankAverage_init_full_value opx_demo 12 1 200 10
           [blank_separated] [mkSums 200 300 400 900] [200]).
  - discriminate.
  - apply Forall2_cons; [|apply Forall2_nil].
    exists 1%Z, 2%Z, 3%Z, 4%Z. repeat split; reflexivity.
  - apply Forall2_cons; [reflexivity | apply Forall2_nil].
Defined.

Lemma BlankAverage_istd_from_windowed_peaks_witness :
  exists istds,
    Forall2 (fun blank a =>
               exists p, In p blank /\ in_both_windows 12 1 200 10 p
                         /\ PEAK_LS_AREA p = a)
            [blank_separated] istds
    /\ mean istds = Ok (BlankAverage.istd blank_constructed).
Proof.
  apply (BlankAverage_istd_from_windowed_peaks opx_demo 12 1 200 10 false
           [blank_separated] blank_constructed).
  reflexivity.
Defined.

(* ================================================================== *)
(** ** Further properties: the concentration *)
(* ================================================================== *)

Section ConcentrationMore.

Variable opx : opx_constants.
Variables (peaks : list Peak) (blank : BlankAverage.t).
Variables low_index high_index : Z.
Variables istd_rt istd_rt_tolerance istd_area_target istd_area_tolerance : Q.
Variables calibration_slope calibration_intercept : Q.
Variables istd_concentration dilution_factor : Q.

(** The value returned when nothing raises. *)
Lemma concentration_Ok (istd a : Q) :
  get_istd_area peaks istd_rt istd_rt_tolerance istd_area_target
                istd_area_tolerance = Ok istd ->
  BlankAverage.area blank = Some a ->
  ~ istd == 0 -> ~ calibration_slope == 0 ->
  ~ BlankAverage.istd blank == 0 ->
  calculate_sample_concentration opx peaks blank low_index high_index
    istd_rt istd_rt_tolerance istd_area_target istd_area_tolerance
    calibration_slope calibration_intercept istd_concentration dilution_factor
  = Ok (Py.round
          ((((sum_areas peaks low_index high_index
              - istd * (a / BlankAverage.istd blank)) / istd
             - calibration_intercept) / calibration_slope)
           * istd_concentration * dilution_factor)
          (DEF_DECIMAL_PLACES opx)).
Proof.
  intros Hloc Harea Histd Hslope Hblank.
  unfold calculate_sample_concentration, concentration_ratio, blank_area.
  rewrite Hloc, Harea. cbn [Py.bind].
  rewrite (truediv_nonzero _ _ Hblank). cbn [Py.bind].
  rewrite (truediv_nonzero _ _ Histd). cbn [Py.bind].
  now rewrite (truediv_nonzero _ _ Hslope).
Qed.

(** X18: a sample without a peak in both ISTD windows makes the call
    raise [IstdError], whatever the blank and the calibration are (a zero
    slope or a zero [blank.istd] included): the lookup comes first. *)
Theorem calculate_sample_concentration_missing_istd :
  ~ has_istd_peak istd_rt istd_rt_tolerance istd_area_target
                  istd_area_tolerance peaks ->
  calculate_sample_concentration opx peaks blank low_index high_index
    istd_rt istd_rt_tolerance istd_area_target istd_area_tolerance
    calibration_slope calibration_intercept istd_concentration dilution_factor
  = Raise (IstdError "No acceptable internal standard peaks found.").
Proof.
  intros Hno. unfold calculate_sample_concentration.
  destruct (get_istd_area_cases istd_rt istd_rt_tolerance istd_area_target
              istd_area_tolerance peaks) as [(H & _) | (_ & ->)];
    [contradiction | reflexivity].
Qed.

End ConcentrationMore.

Section FreshBlank.

Variable opx : opx_constants.
Variables (blank_data : list (list Peak)) (analysis_c6_c10 : bool).
Variables istd_rt istd_rt_tolerance istd_area_target istd_area_tolerance : Q.
Variable b : BlankAverage.t.

Hypothesis constructed :
  BlankAverage__init__ opx blank_data analysis_c6_c10 istd_rt
    istd_rt_tolerance istd_area_target istd_area_tolerance = Ok b.

(** X20: a [BlankAverage] as the constructor returns it cannot be used
    before [area] is assigned: the call raises [TypeError] once the ISTD
    of the sample is located, and never returns a value. *)
Theorem calculate_sample_concentration_area_unset
    (peaks : list Peak) (low_index high_index : Z)
    (calibration_slope calibration_intercept : Q)
    (istd_concentration dilution_factor : Q) :
  (forall istd,
      get_istd_area peaks istd_rt istd_rt_tolerance istd_area_target
                    istd_area_tolerance = Ok istd ->
      calculate_sample_concentration opx peaks b low_index high_index
        istd_rt istd_rt_tolerance istd_area_target istd_area_tolerance
        calibration_slope calibration_intercept istd_concentration
        dilution_factor = Raise TypeError)
  /\ (forall v,
      calculate_sample_concentration opx peaks b low_index high_index
        istd_rt istd_rt_tolerance istd_area_target istd_area_tolerance
        calibration_slope calibration_intercept istd_concentration
        dilution_factor <> Ok v).
Proof.
  destruct (BlankAverage_init_Ok_inv _ _ _ _ _ _ _ _ constructed)
    as (f & istds & m & _ & _ & _ & ->).
  unfold calculate_sample_concentration, blank_area.
  cbn [BlankAverage.area]. split.
  - intros istd ->. reflexivity.
  - intros v. destruct (get_istd_area peaks _ _ _ _); discriminate.
Qed.

(** X21: with [istd_area_tolerance < istd_area_target] every accepted
    ISTD area is positive, so once [area] is assigned, the sample's ISTD
    is located and the slope is not zero, the call returns a value: no
    division by zero is left. *)
Theorem calculate_sample_concentration_returns
    (b' : BlankAverage.t) (a istd : Q)
    (peaks : list Peak) (low_index high_index : Z)
    (calibration_slope calibration_intercept : Q)
    (istd_concentration dilution_factor : Q) :
  istd_area_tolerance < istd_area_target ->
  BlankAverage.istd b' = BlankAverage.istd b ->
  BlankAverage.area b' = Some a ->
  get_istd_area peaks istd_rt istd_rt_tolerance istd_area_target
                istd_area_tolerance = Ok istd ->
  ~ calibration_slope == 0 ->
  exists r,
    calculate_sample_concentration opx peaks b' low_index high_index
      istd_rt istd_rt_tolerance istd_area_target istd_area_tolerance
      calibration_slope calibration_intercept istd_concentration
      dilution_factor = Ok r.
Proof.
  intros Hpos Hsame Harea Hloc Hslope.
  assert (His : 0 < istd).
  { apply get_istd_area_Ok_In in Hloc.
    destruct Hloc as (p & _ & (_ & Hlo & _) & <- & _). lra. }
  assert (Hbl : 0 < BlankAverage.istd b').
  { rewrite Hsame.
    destruct (BlankAverage_init_Ok_inv _ _ _ _ _ _ _ _ constructed)
      as (f & istds & m & _ & Hc & Hm & ->).
    cbn [BlankAverage.istd]. apply comprehension_Ok in Hc.
    destruct (mean_in_range istds (istd_area_target - istd_area_tolerance)
                (istd_area_target + istd_area_tolerance))
      as (m' & Hm' & Hlo & _).
    - intros ->. discriminate.
    - intros y Hy.
      destruct (Forall2_In_right _ _ _ Hc y Hy) as (blank & _ & Hblank).
      apply get_istd_area_Ok_In in Hblank.
      destruct Hblank as (p & _ & (_ & Hl & Hh) & <- & _). split; assumption.
    - rewrite Hm in Hm'. injection Hm' as <-. lra. }
  eexists. apply (concentration_Ok opx peaks b' low_index high_index
                    istd_rt istd_rt_tolerance istd_area_target
                    istd_area_tolerance calibration_slope
                    calibration_intercept istd_concentration dilution_factor
                    istd a); try assumption; lra.
Qed.

End FreshBlank.

Lemma calculate_sample_concentration_missing_istd_witness :
  calculate_sample_concentration opx_demo sample3 blank_zero_istd 0 2
    9 0.5 5000 500 0 0.1 10 5
  = Raise (IstdError "No acceptable internal standard peaks found.").
Proof.
  apply (calculate_sample_concentration_missing_istd opx_demo sample3
           blank_zero_istd 0 2 9 0.5 5000 500 0 0.1 10 5).
  intros (p & Hp & (Hlo & _) & _).
  destruct Hp as [<- | [<- | [<- | []]]]; vm_compute in Hlo; now apply Hlo.
Defined.

Lemma calculate_sample_concentration_area_unset_witness :
  (forall istd,
      get_istd_area blank_separated 12 1 200 10 = Ok istd ->
      calculate_sample_concentration opx_demo blank_separated
        blank_constructed 1 2 12 1 200 10 2 0.1 10 5 = Raise TypeError)
  /\ (forall v,
      calculate_sample_concentration opx_demo blank_separated
        blank_constructed 1 2 12 1 200 10 2 0.1 10 5 <> Ok v).
Proof.
  apply (calculate_sample_concentration_area_unset opx_demo [blank_separated]
           false 12 1 200 10 blank_constructed).
  reflexivity.
Defined.

Lemma calculate_sample_concentration_returns_witness :
  exists r,
    calculate_sample_concentration opx_demo blank_separated blank_assigned
      1 2 12 1 200 10 2 0.1 10 5 = Ok r.
Proof.
  apply (calculate_sample_concentration_returns opx_demo [blank_separated]
           false 12 1 200 10 blank_constructed eq_refl blank_assigned 200 200).
  - reflexivity.
  - reflexivity.
  - reflexivity.
  - reflexivity.
  - vm_compute. discriminate.
Defined.
